(** * Voice prompt audio processor: a shallow embedding of
      [scripts/process_voice_prompt.py] and the properties of its
      orchestration logic.

    The script shells out to [ffmpeg].  Its own logic is: command-line
    handling, the filter-chain string, the availability probe, the two
    engine invocations (analysis or processing) and the size report.  The
    external world (child processes, the filesystem) is an oracle record;
    every interaction with it is logged in an event trace. *)

From Stdlib Require Import String Ascii List ZArith NArith QArith Lia Bool.
From Stdlib Require Import DecimalString.
Import ListNotations.
Local Open Scope string_scope.
Local Open Scope list_scope.

(** ** Python string helpers *)

Module PyStr.

(** [sep.join(l)] *)
Definition join (sep : string) (l : list string) : string :=
  String.concat sep l.

(** [needle in hay] for strings. *)
Fixpoint contains (needle hay : string) : bool :=
  if String.prefix needle hay then true
  else match hay with
       | EmptyString => false
       | String _ rest => contains needle rest
       end.

(** One pass of [s.split(sep)] for a one-character separator: [cur] holds
    the characters of the current field read so far. *)
Fixpoint split_go (sep : ascii) (cur : string) (s : string) : list string :=
  match s with
  | EmptyString => [cur]
  | String c rest =>
      if Ascii.eqb c sep then cur :: split_go sep EmptyString rest
      else split_go sep (cur ++ String c EmptyString) rest
  end.

(** [s.split(sep)]: always at least one field. *)
Definition split (sep : ascii) (s : string) : list string :=
  split_go sep EmptyString s.

(** [s.rfind(c)] as an option: index of the last occurrence of [c]. *)
Fixpoint rfind (c : ascii) (s : string) : option nat :=
  match s with
  | EmptyString => None
  | String d rest =>
      match rfind c rest with
      | Some i => Some (S i)
      | None => if Ascii.eqb d c then Some 0%nat else None
      end
  end.

(** [s[:i]] and [s[i:]] for [0 <= i]. *)
Fixpoint take (i : nat) (s : string) : string :=
  match i, s with
  | O, _ => EmptyString
  | S _, EmptyString => EmptyString
  | S j, String c rest => String c (take j rest)
  end.

Fixpoint drop (i : nat) (s : string) : string :=
  match i, s with
  | O, _ => s
  | S _, EmptyString => EmptyString
  | S j, String _ rest => drop j rest
  end.

(** [c in s] for one character. *)
Fixpoint mem (c : ascii) (s : string) : bool :=
  match s with
  | EmptyString => false
  | String d rest => Ascii.eqb d c || mem c rest
  end.

(** Truthiness of a string: the empty string is falsy. *)
Definition truthy (s : string) : bool :=
  match s with EmptyString => false | _ => true end.

(** ["%d" % z] *)
Definition of_Z (z : Z) : string :=
  NilZero.string_of_int (Z.to_int z).

End PyStr.

(** ** The processor object *)

(** The attributes [VoicePromptProcessor.__init__] sets.  All of them are
    strings (or a list of strings) in the source. *)
Record VoicePromptProcessor := mkProcessor {
  silence_threshold : string;
  silence_duration : string;
  max_silence_duration : string;
  target_loudness : string;
  eq_filters : list string;
  noise_reduction : string;
  compressor : string
}.

(** [VoicePromptProcessor()] *)
Definition init : VoicePromptProcessor := {|
  silence_threshold := "-40dB";
  silence_duration := "0.5";
  max_silence_duration := "0.5";
  target_loudness := "-16";
  eq_filters := [ "highpass=f=100";
                  "lowpass=f=10000";
                  "equalizer=f=150:t=q:w=1:g=-3";
                  "equalizer=f=200:t=q:w=1:g=-2";
                  "equalizer=f=3000:t=q:w=2:g=3" ];
  noise_reduction := "afftdn=nf=-25";
  compressor := "acompressor=threshold=-20dB:ratio=4:attack=5:release=50"
|}.

(** The [silence_filter] f-string of [build_filter_chain]. *)
Definition silence_filter (self : VoicePromptProcessor) : string :=
  "silenceremove="
  ++ "start_periods=1:"
  ++ "start_silence=" ++ silence_duration self ++ ":"
  ++ "start_threshold=" ++ silence_threshold self ++ ":"
  ++ "stop_periods=-1:"
  ++ "stop_silence=" ++ silence_duration self ++ ":"
  ++ "stop_threshold=" ++ silence_threshold self ++ ":"
  ++ "detection=peak".

(** The last stage appended by [build_filter_chain]. *)
Definition loudnorm_filter (self : VoicePromptProcessor) : string :=
  "loudnorm=I=" ++ target_loudness self ++ ":TP=-1.5:LRA=11".

(** The list [filters] of [build_filter_chain] just before the join:
    one [append] per step, [extend] for the equalizers. *)
Definition filters (self : VoicePromptProcessor) : list string :=
  let filters := [] in
  let filters := filters ++ [noise_reduction self] in
  let filters := filters ++ [silence_filter self] in
  let filters := filters ++ eq_filters self in
  let filters := filters ++ [compressor self] in
  let filters := filters ++ [loudnorm_filter self] in
  filters.

(** [VoicePromptProcessor.build_filter_chain] *)
Definition build_filter_chain (self : VoicePromptProcessor) : string :=
  PyStr.join "," (filters self).

(** ** [pathlib.PurePosixPath], as far as [main] uses it *)

Module Pathlib.

(** A parsed POSIX path: the root (empty, one slash or exactly two) and
    the components after it.  There is no drive on POSIX. *)
Record PurePath := mkPath {
  root : string;
  tail : list string
}.

(** [posixpath.splitroot], without the (empty) drive. *)
Definition splitroot (p : string) : string * string :=
  match p with
  | String "/" rest =>
      match rest with
      | String "/" rest2 =>
          match rest2 with
          | String "/" _ => ("/", rest)
          | _ => ("//", rest2)
          end
      | _ => ("/", rest)
      end
  | _ => ("", p)
  end.

(** The component filter of the parser: [x and x != '.']. *)
Definition keep_part (x : string) : bool :=
  PyStr.truthy x && negb (String.eqb x ".").

(** [PurePosixPath(s)] *)
Definition Path (s : string) : PurePath :=
  let '(r, rel) := splitroot s in
  {| root := r; tail := filter keep_part (PyStr.split "/" rel) |}.

(** [str(p)] *)
Definition str (p : PurePath) : string :=
  match root p, tail p with
  | EmptyString, [] => "."
  | r, t => r ++ PyStr.join "/" t
  end.

(** [p.name] *)
Definition name (p : PurePath) : string :=
  last (tail p) "".

(** The test [0 < i < len(name) - 1] shared by [suffix] and [stem]
    (CPython up to 3.13: a name that ends in a dot has no suffix). *)
Definition suffix_index (nm : string) : option nat :=
  match PyStr.rfind "." nm with
  | Some i => if ((0 <? i) && (i <? String.length nm - 1))%nat
              then Some i else None
  | None => None
  end.

(** [p.suffix] *)
Definition suffix (p : PurePath) : string :=
  match suffix_index (name p) with
  | Some i => PyStr.drop i (name p)
  | None => ""
  end.

(** [p.stem] *)
Definition stem (p : PurePath) : string :=
  match suffix_index (name p) with
  | Some i => PyStr.take i (name p)
  | None => name p
  end.

(** [p.parent]: a path without components is its own parent. *)
Definition parent (p : PurePath) : PurePath :=
  match tail p with
  | [] => p
  | t => {| root := root p; tail := removelast t |}
  end.

(** [p / key] for a string [key]: an anchored [key] replaces [p], any
    other is parsed and its components appended. *)
Definition truediv (p : PurePath) (key : string) : PurePath :=
  let k := Path key in
  if PyStr.truthy (root k) then k
  else {| root := root p; tail := tail p ++ tail k |}.

End Pathlib.

(** ** [repr], as [str(CalledProcessError)] needs it *)

Module PyRepr.

Definition hex_digit (n : nat) : ascii :=
  match n with
  | 0 => "0" | 1 => "1" | 2 => "2" | 3 => "3" | 4 => "4" | 5 => "5"
  | 6 => "6" | 7 => "7" | 8 => "8" | 9 => "9" | 10 => "a" | 11 => "b"
  | 12 => "c" | 13 => "d" | 14 => "e" | _ => "f"
  end%char%nat.

(** The double-quote character. *)
Definition dquote : ascii := ascii_of_nat 34.

(** The quote [repr] picks: double quotes only when the text holds a
    single quote and no double quote. *)
Definition quote_of (s : string) : ascii :=
  if PyStr.mem "'" s && negb (PyStr.mem dquote s) then dquote else "'"%char.

(** Whether every byte of the text is below 128. *)
Fixpoint is_ascii (s : string) : bool :=
  match s with
  | EmptyString => true
  | String c rest => (nat_of_ascii c <? 128)%nat && is_ascii rest
  end.

(** One character of [repr(s)], for a character of ASCII.  Outside
    ASCII, [repr] keeps or escapes a character by the interpreter's
    Unicode database, which is not modelled: [repr_str] below answers
    for ASCII texts only. *)
Definition repr_char (q c : ascii) : string :=
  let n := nat_of_ascii c in
  if Ascii.eqb c q || Ascii.eqb c "\" then String "\" (String c "")
  else if (n =? 9)%nat then "\t"
  else if (n =? 10)%nat then "\n"
  else if (n =? 13)%nat then "\r"
  else if ((n <? 32) || (n =? 127))%nat
       then String "\" (String "x" (String (hex_digit (n / 16))
                                      (String (hex_digit (n mod 16)) "")))
  else String c "".

Fixpoint repr_body (q : ascii) (s : string) : string :=
  match s with
  | EmptyString => ""
  | String c rest => repr_char q c ++ repr_body q rest
  end.

(** [repr(s)] for a string of ASCII; [None] for any other string. *)
Definition repr_str (s : string) : option string :=
  if is_ascii s then
    let q := quote_of s in
    Some (String q (repr_body q s ++ String q ""))
  else None.

Fixpoint repr_each (l : list string) : option (list string) :=
  match l with
  | [] => Some []
  | x :: rest =>
      match repr_str x, repr_each rest with
      | Some r, Some rs => Some (r :: rs)
      | _, _ => None
      end
  end.

(** [repr(l)] for a list of ASCII strings. *)
Definition repr_list (l : list string) : option string :=
  match repr_each l with
  | Some rs => Some ("[" ++ PyStr.join ", " rs ++ "]")%string
  | None => None
  end.

End PyRepr.

(** ** The outside world and the exceptions it raises *)

(** The [OSError] subclasses that matter to the handlers of the script:
    [check_ffmpeg] catches the first one only. *)
Inductive OSError := FileNotFoundError | PermissionError.

(** What a child process leaves behind: exit status (negative when a
    signal killed it) and the bytes it wrote to its two streams. *)
Record ChildExit := mkChildExit {
  returncode : Z;
  child_stdout : string;
  child_stderr : string
}.

Inductive SpawnResult :=
| SpawnFails (e : OSError)
| Exits (c : ChildExit).

(** The oracle.  [w_exists] is the filesystem when [process_audio] starts,
    [w_getsize] the filesystem after the processing child has exited:
    each is consulted at one moment of a run only.  [w_decode] is the
    strict decoder of the locale's encoding, which [subprocess.run]
    applies to the captured bytes under [text=True]: [None] for bytes
    that do not decode. *)
Record World := mkWorldIn {
  w_spawn : list string -> SpawnResult;
  w_exists : string -> bool;
  w_getsize : string -> OSError + N;
  w_decode : string -> option string
}.

(** The strict decoder of an ASCII locale. *)
Definition strict_ascii (bytes : string) : option string :=
  if PyRepr.is_ascii bytes then Some bytes else None.

(** A world in an ASCII locale. *)
Definition mkWorld (spawn : list string -> SpawnResult)
  (exists_ : string -> bool) (getsize_ : string -> OSError + N) : World :=
  mkWorldIn spawn exists_ getsize_ strict_ascii.

Inductive exn :=
| ExOSError (e : OSError)
| CalledProcessError (retcode : Z) (cmd : list string)
                     (output err : option string)
| ZeroDivisionError
| UnicodeDecodeError.

(** [signal.Signals] on Linux, by number. *)
Definition signal_name (n : Z) : option string :=
  match n with
  | 1 => Some "SIGHUP" | 2 => Some "SIGINT" | 3 => Some "SIGQUIT"
  | 4 => Some "SIGILL" | 5 => Some "SIGTRAP" | 6 => Some "SIGABRT"
  | 7 => Some "SIGBUS" | 8 => Some "SIGFPE" | 9 => Some "SIGKILL"
  | 10 => Some "SIGUSR1" | 11 => Some "SIGSEGV" | 12 => Some "SIGUSR2"
  | 13 => Some "SIGPIPE" | 14 => Some "SIGALRM" | 15 => Some "SIGTERM"
  | 16 => Some "SIGSTKFLT" | 17 => Some "SIGCHLD" | 18 => Some "SIGCONT"
  | 19 => Some "SIGSTOP" | 20 => Some "SIGTSTP" | 21 => Some "SIGTTIN"
  | 22 => Some "SIGTTOU" | 23 => Some "SIGURG" | 24 => Some "SIGXCPU"
  | 25 => Some "SIGXFSZ" | 26 => Some "SIGVTALRM" | 27 => Some "SIGPROF"
  | 28 => Some "SIGWINCH" | 29 => Some "SIGIO" | 30 => Some "SIGPWR"
  | 31 => Some "SIGSYS" | 34 => Some "SIGRTMIN" | 64 => Some "SIGRTMAX"
  | _ => None
  end%Z.

(** [str(e)] for a [CalledProcessError]: the command and the exit status
    (or the signal), and nothing of what the child wrote.  The command
    is shown by [repr], so the text is given for ASCII commands. *)
Definition str_CalledProcessError (retcode : Z) (cmd : list string)
  : option string :=
  match PyRepr.repr_list cmd with
  | None => None
  | Some shown_cmd =>
      Some
        (if (retcode <? 0)%Z then
           match signal_name (- retcode) with
           | Some nm =>
               "Command '" ++ shown_cmd ++ "' died with <Signals." ++ nm
               ++ ": " ++ PyStr.of_Z (- retcode) ++ ">."
           | None =>
               "Command '" ++ shown_cmd ++ "' died with unknown signal "
               ++ PyStr.of_Z (- retcode) ++ "."
           end
         else
           "Command '" ++ shown_cmd ++ "' returned non-zero exit status "
           ++ PyStr.of_Z retcode ++ ".")%string
  end.

(** [str(e)] for the exceptions the script interpolates in a line: only
    [CalledProcessError] is ever printed. *)
Definition str_exn (e : exn) : option string :=
  match e with
  | CalledProcessError retcode cmd _ _ => str_CalledProcessError retcode cmd
  | _ => None
  end.

(** ** Events and the monad of the script *)

(** What [print] writes.  A line [f"...: {e}"] is kept as its fixed
    prefix and the exception interpolated in it; [str_exn] gives the
    text of the exception.  The size line formats three floats; the model
    keeps the three numbers, as exact rationals, in place of their
    two- and one-decimal renderings. *)
Inductive printed :=
| Text (s : string)
| SizeLine (input_size output_size reduction : Q)
| Interpolated (prefix : string) (e : exn).

Inductive event :=
| EvSpawn (cmd : list string) (captured : bool) (r : SpawnResult)
| EvExists (path : string)
| EvGetsize (path : string)
| EvPrint (p : printed).

Inductive result (A : Type) :=
| Ok (a : A)
| Raise (e : exn).
Arguments Ok {A} a.
Arguments Raise {A} e.

(** A computation reads the world and yields the events it caused, in
    order, with its value or the exception that ended it. *)
Definition M (A : Type) : Type := World -> list event * result A.

Definition ret {A} (a : A) : M A := fun _ => ([], Ok a).

Definition bind {A B} (m : M A) (f : A -> M B) : M B :=
  fun w =>
    match m w with
    | (t1, Ok a) => let '(t2, r) := f a w in (t1 ++ t2, r)
    | (t1, Raise e) => (t1, Raise e)
    end.

Definition raise {A} (e : exn) : M A := fun _ => ([], Raise e).

(** [try: m  except ...: h e]; [h] answers [None] for the exceptions the
    [except] clause does not name. *)
Definition try_except {A} (m : M A) (h : exn -> option (M A)) : M A :=
  fun w =>
    match m w with
    | (t1, Ok a) => (t1, Ok a)
    | (t1, Raise e) =>
        match h e with
        | Some k => let '(t2, r) := k w in (t1 ++ t2, r)
        | None => (t1, Raise e)
        end
    end.

Declare Scope py_scope.
Delimit Scope py_scope with py.
Notation "x <- m ;; k" := (bind m (fun x => k))
  (at level 100, m at next level, right associativity) : py_scope.
Notation "m ;; k" := (bind m (fun _ => k))
  (at level 100, right associativity) : py_scope.
Local Open Scope py_scope.

Definition print (s : string) : M unit :=
  fun _ => ([EvPrint (Text s)], Ok tt).

Definition print_size_line (i o r : Q) : M unit :=
  fun _ => ([EvPrint (SizeLine i o r)], Ok tt).

(** [print(f"{prefix}{e}")] *)
Definition print_exn (prefix : string) (e : exn) : M unit :=
  fun _ => ([EvPrint (Interpolated prefix e)], Ok tt).

(** [os.path.exists] *)
Definition path_exists (p : string) : M bool :=
  fun w => ([EvExists p], Ok (w_exists w p)).

(** [os.path.getsize] *)
Definition getsize (p : string) : M N :=
  fun w =>
    match w_getsize w p with
    | inl e => ([EvGetsize p], Raise (ExOSError e))
    | inr n => ([EvGetsize p], Ok n)
    end.

(** What [subprocess.run] returns: the streams are [None] unless
    captured. *)
Record CompletedProcess := mkCompleted {
  cp_returncode : Z;
  cp_stdout : option string;
  cp_stderr : option string
}.

(** The newline translation of text mode: a carriage return followed by
    a line feed, and then any other carriage return, becomes one line
    feed. *)
Fixpoint translate_newlines (s : string) : string :=
  match s with
  | EmptyString => EmptyString
  | String c rest =>
      if (nat_of_ascii c =? 13)%nat then
        match rest with
        | String d rest2 =>
            if (nat_of_ascii d =? 10)%nat
            then String d (translate_newlines rest2)
            else String (ascii_of_nat 10) (translate_newlines rest)
        | EmptyString => String (ascii_of_nat 10) EmptyString
        end
      else String c (translate_newlines rest)
  end.

(** What the caller gets of one stream of the child: nothing when the
    stream is not captured, the bytes when it is, and under [text=True]
    the decoded text with its newlines translated.  The outer [None] is
    a decoding failure. *)
Definition read_stream (w : World) (captured text : bool) (bytes : string)
  : option (option string) :=
  if captured then
    if text then
      match w_decode w bytes with
      | Some decoded => Some (Some (translate_newlines decoded))
      | None => None
      end
    else Some (Some bytes)
  else Some None.

(** [subprocess.run(cmd, check=True, ...)]: every call of the script
    passes [check=True].  The streams are read, and decoded, before the
    return code is checked. *)
Definition subprocess_run (cmd : list string) (captured text : bool)
  : M CompletedProcess :=
  fun w =>
    let r := w_spawn w cmd in
    match r with
    | SpawnFails e => ([EvSpawn cmd captured r], Raise (ExOSError e))
    | Exits c =>
        match read_stream w captured text (child_stdout c),
              read_stream w captured text (child_stderr c) with
        | Some out, Some err =>
            if (returncode c =? 0)%Z
            then ([EvSpawn cmd captured r],
                  Ok (mkCompleted (returncode c) out err))
            else ([EvSpawn cmd captured r],
                  Raise (CalledProcessError (returncode c) cmd out err))
        | _, _ => ([EvSpawn cmd captured r], Raise UnicodeDecodeError)
        end
    end.

(** ** The methods of [VoicePromptProcessor] *)

(** The newline character of the f-strings that start with one. *)
Definition nl : string := String (ascii_of_nat 10) EmptyString.

(** [l.insert(i, x)] for [0 <= i]. *)
Definition list_insert {A} (i : nat) (x : A) (l : list A) : list A :=
  firstn i l ++ x :: skipn i l.

(** The probe command of [check_ffmpeg]. *)
Definition probe_cmd : list string := ["ffmpeg"; "-version"].

Definition ffmpeg_not_found_msg : string :=
  "Error: ffmpeg not found. Please install ffmpeg to use this script.".

(** [VoicePromptProcessor.check_ffmpeg]: both streams are piped, so the
    probe is captured, as bytes. *)
Definition check_ffmpeg : M bool :=
  try_except
    (_ <- subprocess_run probe_cmd true false ;; ret true)
    (fun e =>
       match e with
       | CalledProcessError _ _ _ _
       | ExOSError FileNotFoundError =>
           Some (print ffmpeg_not_found_msg ;; ret false)
       | _ => None
       end).

(** The list [cmd] of [process_audio] as first built. *)
Definition process_cmd (input_file filter_chain output_file : string)
  : list string :=
  [ "ffmpeg";
    "-i"; input_file;
    "-af"; filter_chain;
    "-ar"; "44100";
    "-ac"; "1";
    "-c:a"; "libmp3lame";
    "-b:a"; "96k";
    "-y";
    output_file ].

(** The command [process_audio] runs: in quiet mode [-loglevel error] is
    inserted after the program name. *)
Definition final_process_cmd (verbose : bool)
  (input_file filter_chain output_file : string) : list string :=
  let cmd := process_cmd input_file filter_chain output_file in
  if verbose then cmd
  else list_insert 2 "error" (list_insert 1 "-loglevel" cmd).

Definition input_not_found_msg (input_file : string) : string :=
  "Error: Input file '" ++ input_file ++ "' not found.".

Definition processing_error_prefix : string := "Error processing audio: ".

(** [a / b] on floats, over the rationals: a zero divisor raises. *)
Definition py_div (a b : Q) : M Q :=
  if Qeq_bool b 0 then raise ZeroDivisionError else ret (a / b)%Q.

(** [size / 1024 / 1024] *)
Definition megabytes (size : N) : Q :=
  (inject_Z (Z.of_N size) / 1024 / 1024)%Q.

(** The size report of [process_audio] (the three lines after the child
    has returned, and the [print]). *)
Definition report_sizes (input_file output_file : string) : M unit :=
  isz <- getsize input_file ;;
  let input_size := megabytes isz in
  osz <- getsize output_file ;;
  let output_size := megabytes osz in
  ratio <- py_div (input_size - output_size)%Q input_size ;;
  let reduction := (ratio * 100)%Q in
  print_size_line input_size output_size reduction.

(** [VoicePromptProcessor.process_audio] *)
Definition process_audio (self : VoicePromptProcessor)
  (input_file output_file : string) (verbose : bool) : M bool :=
  found <- path_exists input_file ;;
  if negb found then
    print (input_not_found_msg input_file) ;;
    ret false
  else
    let filter_chain := build_filter_chain self in
    let cmd := final_process_cmd verbose input_file filter_chain output_file in
    (if verbose then
       print (nl ++ "Processing: " ++ input_file) ;;
       print ("Output: " ++ output_file) ;;
       print (nl ++ "Filter chain: " ++ filter_chain ++ nl)
     else ret tt) ;;
    try_except
      (_ <- subprocess_run cmd (negb verbose) false ;;
       (if verbose then print (nl ++ "✓ Processing complete!") else ret tt) ;;
       report_sizes input_file output_file ;;
       ret true)
      (fun e =>
         match e with
         | CalledProcessError _ _ _ _ =>
             Some (print_exn processing_error_prefix e ;; ret false)
         | _ => None
         end).

(** The command of [analyze_silence]: its only output is the null muxer
    writing to [-]. *)
Definition analyze_cmd (self : VoicePromptProcessor) (input_file : string)
  : list string :=
  [ "ffmpeg";
    "-i"; input_file;
    "-af"; ("silencedetect=noise=" ++ silence_threshold self
            ++ ":d=" ++ silence_duration self)%string;
    "-f"; "null";
    "-" ].

(** The loop of [analyze_silence] over the lines of the child's stderr:
    prints the matching lines and collects [silence_events]. *)
Fixpoint scan_silence (lines : list string) (silence_events : list string)
  : M (list string) :=
  match lines with
  | [] => ret silence_events
  | line :: rest =>
      if PyStr.contains "silencedetect" line && PyStr.contains "silence_" line
      then
        print line ;;
        (if PyStr.contains "silence_duration" line
         then scan_silence rest (silence_events ++ [line])
         else scan_silence rest silence_events)
      else scan_silence rest silence_events
  end.

Definition analysis_error_prefix : string := "Error analyzing silence: ".

(** [VoicePromptProcessor.analyze_silence]: returns [None] on every
    path that returns.  The child is captured as text, so its output is
    decoded before anything else; a decoding failure is not a
    [CalledProcessError] and leaves through the handler. *)
Definition analyze_silence (self : VoicePromptProcessor)
  (input_file : string) : M unit :=
  let cmd := analyze_cmd self input_file in
  print (nl ++ "Analyzing silence patterns in: " ++ input_file) ;;
  print ("Threshold: " ++ silence_threshold self ++ ", Min duration: "
         ++ silence_duration self ++ "s" ++ nl) ;;
  try_except
    (res <- subprocess_run cmd true true ;;
     let err := match cp_stderr res with Some s => s | None => "" end in
     silence_events <- scan_silence (PyStr.split (ascii_of_nat 10) err) [] ;;
     print (nl ++ "Total silence periods detected: "
            ++ PyStr.of_Z (Z.of_nat (length silence_events))))
    (fun e =>
       match e with
       | CalledProcessError _ _ _ _ =>
           Some (print_exn analysis_error_prefix e)
       | _ => None
       end).

(** The command of [get_audio_info]. *)
Definition probe_info_cmd (input_file : string) : list string :=
  [ "ffprobe";
    "-v"; "quiet";
    "-print_format"; "json";
    "-show_format";
    "-show_streams";
    input_file ].

Definition info_error_prefix : string := "Error analyzing audio file: ".

(** [VoicePromptProcessor.get_audio_info]: the captured stdout of
    [ffprobe], decoded as text, or [None] after the error line. *)
Definition get_audio_info (input_file : string) : M (option string) :=
  let cmd := probe_info_cmd input_file in
  try_except
    (res <- subprocess_run cmd true true ;;
     ret (cp_stdout res))
    (fun e =>
       match e with
       | CalledProcessError _ _ _ _ =>
           Some (print_exn info_error_prefix e ;; ret None)
       | _ => None
       end).

(** ** The command line *)

Module Args.

(** What the user typed, after [argparse] has accepted it: the input is
    required, everything else may be absent.  (A command line [argparse]
    rejects never reaches [main]'s own code.) *)
Record CommandLine := mkCommandLine {
  cl_input : string;
  cl_output : option string;
  cl_verbose : bool;
  cl_analyze : bool;
  cl_silence_threshold : option string;
  cl_silence_duration : option string;
  cl_target_loudness : option string
}.

(** The namespace [parser.parse_args()] returns. *)
Record Namespace := mkNamespace {
  input : string;
  output : option string;
  verbose : bool;
  analyze : bool;
  silence_threshold : string;
  silence_duration : string;
  target_loudness : string
}.

Definition default (d : string) (o : option string) : string :=
  match o with Some v => v | None => d end.

(** [parse_args] with the defaults of the three [add_argument] calls. *)
Definition parse_args (cl : CommandLine) : Namespace := {|
  input := cl_input cl;
  output := cl_output cl;
  verbose := cl_verbose cl;
  analyze := cl_analyze cl;
  silence_threshold := default "-35dB" (cl_silence_threshold cl);
  silence_duration := default "0.4" (cl_silence_duration cl);
  target_loudness := default "-16" (cl_target_loudness cl)
|}.

End Args.

(** ** [main] *)

(** The three guarded assignments of [main] after
    [processor = VoicePromptProcessor()]. *)
Definition override (args : Args.Namespace) (processor : VoicePromptProcessor)
  : VoicePromptProcessor :=
  let processor :=
    if PyStr.truthy (Args.silence_threshold args)
    then {| silence_threshold := Args.silence_threshold args;
            silence_duration := silence_duration processor;
            max_silence_duration := max_silence_duration processor;
            target_loudness := target_loudness processor;
            eq_filters := eq_filters processor;
            noise_reduction := noise_reduction processor;
            compressor := compressor processor |}
    else processor in
  let processor :=
    if PyStr.truthy (Args.silence_duration args)
    then {| silence_threshold := silence_threshold processor;
            silence_duration := Args.silence_duration args;
            max_silence_duration := max_silence_duration processor;
            target_loudness := target_loudness processor;
            eq_filters := eq_filters processor;
            noise_reduction := noise_reduction processor;
            compressor := compressor processor |}
    else processor in
  if PyStr.truthy (Args.target_loudness args)
  then {| silence_threshold := silence_threshold processor;
          silence_duration := silence_duration processor;
          max_silence_duration := max_silence_duration processor;
          target_loudness := Args.target_loudness args;
          eq_filters := eq_filters processor;
          noise_reduction := noise_reduction processor;
          compressor := compressor processor |}
  else processor.

(** The [else] branch of "Determine output filename". *)
Definition default_output_file (input : string) : string :=
  let input_path := Pathlib.Path input in
  Pathlib.str
    (Pathlib.truediv (Pathlib.parent input_path)
       (Pathlib.stem input_path ++ "_processed" ++ Pathlib.suffix input_path)).

(** "Determine output filename": an absent and an empty [args.output]
    are both falsy. *)
Definition output_file_of (args : Args.Namespace) : string :=
  match Args.output args with
  | Some o => if PyStr.truthy o then o else default_output_file (Args.input args)
  | None => default_output_file (Args.input args)
  end.

(** [main], from the parsed arguments on; the value is what it
    returns. *)
Definition main (args : Args.Namespace) : M Z :=
  let processor := override args init in
  available <- check_ffmpeg ;;
  if negb available then ret 1%Z
  else if Args.analyze args then
    analyze_silence processor (Args.input args) ;;
    ret 0%Z
  else
    let output_file := output_file_of args in
    success <- process_audio processor (Args.input args) output_file
                 (Args.verbose args) ;;
    ret (if success then 0 else 1)%Z.

(** How the process ends: [sys.exit(main())], or a traceback when an
    exception escapes [main]. *)
Inductive termination :=
| Exit (code : Z)
| Traceback (e : exn).

(** The exit status the shell sees: the interpreter exits with 1 on an
    uncaught exception. *)
Definition exit_status (t : termination) : Z :=
  match t with
  | Exit code => code
  | Traceback _ => 1
  end.

(** One run of the script in a world: its events and how it ends. *)
Definition run (cl : Args.CommandLine) (w : World) : list event * termination :=
  match main (Args.parse_args cl) w with
  | (t, Ok code) => (t, Exit code)
  | (t, Raise e) => (t, Traceback e)
  end.

(** ** Observations on a trace *)

(** The commands spawned, in order. *)
Fixpoint spawned (t : list event) : list (list string) :=
  match t with
  | [] => []
  | EvSpawn cmd _ _ :: rest => cmd :: spawned rest
  | _ :: rest => spawned rest
  end.

(** What the script itself printed, in order. *)
Fixpoint printed_lines (t : list event) : list printed :=
  match t with
  | [] => []
  | EvPrint p :: rest => p :: printed_lines rest
  | _ :: rest => printed_lines rest
  end.

(** Everything written for the user, in the order of the calls that
    wrote it: what the script prints and, for a child that is not
    captured, what the child writes to the streams it inherits.  The
    script never flushes, so this is the order on screen only where the
    script's output is not block-buffered; a statement about one
    writer alone does not depend on it. *)
Inductive shown :=
| ShownPrint (p : printed)
| ShownChild (out err : string).

Fixpoint terminal (t : list event) : list shown :=
  match t with
  | [] => []
  | EvPrint p :: rest => ShownPrint p :: terminal rest
  | EvSpawn _ false (Exits c) :: rest =>
      ShownChild (child_stdout c) (child_stderr c) :: terminal rest
  | _ :: rest => terminal rest
  end.

(** What the children that are not captured wrote, each to the streams
    it inherits from the script: standard output and standard error. *)
Fixpoint streamed (t : list event) : list (string * string) :=
  match t with
  | [] => []
  | EvSpawn _ false (Exits c) :: rest =>
      (child_stdout c, child_stderr c) :: streamed rest
  | _ :: rest => streamed rest
  end.

(** The text of a printed line, where the model has it: the floats of
    the size line are not formatted, and an exception is shown for
    ASCII commands. *)
Definition printed_text (p : printed) : option string :=
  match p with
  | Text s => Some s
  | SizeLine _ _ _ => None
  | Interpolated prefix e =>
      match str_exn e with
      | Some s => Some (prefix ++ s)%string
      | None => None
      end
  end.

(** A world for examples, in an ASCII locale: the probe succeeds, every
    other child ends as [c]; every path exists, with the given sizes
    after processing. *)
Definition sample_world (c : SpawnResult) (exists_ : bool) (isz osz : N)
  (input_file : string) : World := {|
  w_spawn := fun cmd =>
    if list_eq_dec string_dec cmd probe_cmd
    then Exits (mkChildExit 0 "ffmpeg version 6.0" "")
    else c;
  w_exists := fun _ => exists_;
  w_getsize := fun p => if String.eqb p input_file then inr isz else inr osz;
  w_decode := strict_ascii
|}.

(** ** Vocabulary of the statements *)

(** The processor [main] works with, and the two engine commands a run
    can issue. *)
Definition processor_of (cl : Args.CommandLine) : VoicePromptProcessor :=
  override (Args.parse_args cl) init.

Definition engine_cmd (cl : Args.CommandLine) : list string :=
  final_process_cmd (Args.cl_verbose cl) (Args.cl_input cl)
    (build_filter_chain (processor_of cl))
    (output_file_of (Args.parse_args cl)).

Definition analysis_cmd (cl : Args.CommandLine) : list string :=
  analyze_cmd (processor_of cl) (Args.cl_input cl).

(** The probe ran and returned zero. *)
Definition probe_ok (w : World) : bool :=
  match w_spawn w probe_cmd with
  | Exits c => (returncode c =? 0)%Z
  | SpawnFails _ => false
  end.

(** The probe failed the way [check_ffmpeg] handles: no binary, or a
    non-zero status. *)
Definition probe_fails (w : World) : Prop :=
  w_spawn w probe_cmd = SpawnFails FileNotFoundError
  \/ exists c, w_spawn w probe_cmd = Exits c /\ returncode c <> 0%Z.

(** Some child of the trace could not be started or returned non-zero. *)
Definition spawn_failed (e : event) : bool :=
  match e with
  | EvSpawn _ _ (SpawnFails _) => true
  | EvSpawn _ _ (Exits c) => negb (returncode c =? 0)%Z
  | _ => false
  end.

Definition engine_failed (t : list event) : bool := existsb spawn_failed t.

(** A command of the shape [process_audio] builds, for this input. *)
Definition processing_spawned (input_file : string) (t : list event) : Prop :=
  exists verbose chain output_file,
    In (final_process_cmd verbose input_file chain output_file) (spawned t).

(** The events of a trace that touch the filesystem. *)
Definition touches_files (e : event) : bool :=
  match e with
  | EvExists _ | EvGetsize _ => true
  | _ => false
  end.

(** The chain text with the equalizer stages between two fixed parts:
    every equalizer is followed by the separator. *)
Definition with_separators (eqs : list string) (rest : string) : string :=
  fold_right (fun e acc => (e ++ "," ++ acc)%string) rest eqs.

(** The silence-removal stage with its four value slots, and the
    loudness stage with its one, as the engine reads them. *)
Definition silence_stage
  (start_silence start_threshold stop_silence stop_threshold : string)
  : string :=
  "silenceremove=start_periods=1:start_silence=" ++ start_silence
  ++ ":start_threshold=" ++ start_threshold
  ++ ":stop_periods=-1:stop_silence=" ++ stop_silence
  ++ ":stop_threshold=" ++ stop_threshold
  ++ ":detection=peak".

Definition loudnorm_stage (integrated_target : string) : string :=
  "loudnorm=I=" ++ integrated_target ++ ":TP=-1.5:LRA=11".

(** Two processors that differ at most in [max_silence_duration]. *)
Definition same_but_max_silence (p q : VoicePromptProcessor) : Prop :=
  silence_threshold p = silence_threshold q
  /\ silence_duration p = silence_duration q
  /\ target_loudness p = target_loudness q
  /\ eq_filters p = eq_filters q
  /\ noise_reduction p = noise_reduction q
  /\ compressor p = compressor q.

(** The byte-level formula of the size reduction. *)
Definition reduction_formula (input_bytes output_bytes : N) : Q :=
  ((inject_Z (Z.of_N input_bytes) - inject_Z (Z.of_N output_bytes))
   / inject_Z (Z.of_N input_bytes) * 100)%Q.

(** A parsed path as the parser leaves it: one of the three roots, and
    components that are not empty, not a lone dot, and free of slashes. *)
Definition normal_part (x : string) : Prop :=
  Pathlib.keep_part x = true /\ PyStr.mem "/" x = false.

Definition normal_path (p : Pathlib.PurePath) : Prop :=
  (Pathlib.root p = "" \/ Pathlib.root p = "/" \/ Pathlib.root p = "//")
  /\ Forall normal_part (Pathlib.tail p).

(** The file name [main] gives the output when none is asked for. *)
Definition processed_name (p : Pathlib.PurePath) : string :=
  Pathlib.stem p ++ "_processed" ++ Pathlib.suffix p.

(** The same on the text of a file name: [_processed] goes in front of
    the suffix, or at the end of a name without one. *)
Definition processed_file_name (nm : string) : string :=
  match Pathlib.suffix_index nm with
  | Some i => PyStr.take i nm ++ "_processed" ++ PyStr.drop i nm
  | None => nm ++ "_processed"
  end.

(** What [process_audio] echoes before the engine runs, in verbose mode
    only. *)
Definition preamble (verbose : bool) (input_file output_file chain : string)
  : list event :=
  if verbose then
    [ EvPrint (Text (nl ++ "Processing: " ++ input_file));
      EvPrint (Text ("Output: " ++ output_file));
      EvPrint (Text (nl ++ "Filter chain: " ++ chain ++ nl)) ]
  else [].

(** The completion line of verbose mode. *)
Definition completion (verbose : bool) : list event :=
  if verbose then [EvPrint (Text (nl ++ "✓ Processing complete!"))] else [].

(** The two lines [analyze_silence] prints before the engine runs. *)
Definition analysis_header (self : VoicePromptProcessor) (input_file : string)
  : list event :=
  [ EvPrint (Text (nl ++ "Analyzing silence patterns in: " ++ input_file));
    EvPrint (Text ("Threshold: " ++ silence_threshold self
                   ++ ", Min duration: " ++ silence_duration self
                   ++ "s" ++ nl)) ].

(** A file name whose last character is a dot: [pathlib] reads no
    suffix from it. *)
Definition ends_with_dot (nm : string) : bool :=
  match PyStr.rfind "." nm with
  | Some i => (i =? String.length nm - 1)%nat
  | None => false
  end.

(** The same command line with another output argument. *)
Definition with_output (o : option string) (cl : Args.CommandLine)
  : Args.CommandLine :=
  Args.mkCommandLine (Args.cl_input cl) o (Args.cl_verbose cl)
    (Args.cl_analyze cl) (Args.cl_silence_threshold cl)
    (Args.cl_silence_duration cl) (Args.cl_target_loudness cl).

(** The two tests of the loop of [analyze_silence]: a line that is
    printed, and a printed line that is counted. *)
Definition is_silence_line (line : string) : bool :=
  PyStr.contains "silencedetect" line && PyStr.contains "silence_" line.

Definition is_silence_period (line : string) : bool :=
  is_silence_line line && PyStr.contains "silence_duration" line.

(** The last line of a completed analysis. *)
Definition total_line (n : nat) : string :=
  nl ++ "Total silence periods detected: " ++ PyStr.of_Z (Z.of_nat n).

(** What [text=True] makes of captured bytes: the decoded text with its
    newlines translated, or [None] where the bytes do not decode. *)
Definition decode_text (w : World) (bytes : string) : option string :=
  match w_decode w bytes with
  | Some decoded => Some (translate_newlines decoded)
  | None => None
  end.

(** The lines of a text: [text.split('\n')]. *)
Definition text_lines (text : string) : list string :=
  PyStr.split (ascii_of_nat 10) text.

(** The probe as it stands in every trace. *)
Definition probe_event (w : World) : event :=
  EvSpawn probe_cmd true (w_spawn w probe_cmd).

(** What precedes the engine in a processing run that reaches it. *)
Definition processing_prefix (cl : Args.CommandLine) (w : World)
  : list event :=
  probe_event w :: EvExists (Args.cl_input cl)
    :: preamble (Args.cl_verbose cl) (Args.cl_input cl)
         (output_file_of (Args.parse_args cl))
         (build_filter_chain (processor_of cl)).

(** The exception [subprocess.run] raises for an engine child that
    returned non-zero: it holds the child's streams where they were
    captured, that is in quiet mode. *)
Definition engine_error (cl : Args.CommandLine) (c : ChildExit) : exn :=
  CalledProcessError (returncode c) (engine_cmd cl)
    (if negb (Args.cl_verbose cl) then Some (child_stdout c) else None)
    (if negb (Args.cl_verbose cl) then Some (child_stderr c) else None).

(** The size line of a trace, if the script printed one. *)
Definition is_size_line (e : event) : bool :=
  match e with
  | EvPrint (SizeLine _ _ _) => true
  | _ => false
  end.

(** *** The four statements that do not hold as written *)

(** Exit status 1 exactly on failure, where a failure is a missing input
    or any engine invocation that could not run or returned non-zero. *)
Definition exit_status_tracks_failure (cl : Args.CommandLine) (w : World)
  : Prop :=
  let '(t, e) := run cl w in
  exit_status e =
  if engine_failed t || negb (w_exists w (Args.cl_input cl)) then 1%Z else 0%Z.

(** Every run with a missing input ends with the input-not-found
    message and a failure, and spawns no processing command. *)
Definition missing_input_always_reported (cl : Args.CommandLine) (w : World)
  : Prop :=
  w_exists w (Args.cl_input cl) = false ->
  let '(t, e) := run cl w in
  exit_status e = 1%Z
  /\ In (Text (input_not_found_msg (Args.cl_input cl))) (printed_lines t)
  /\ ~ processing_spawned (Args.cl_input cl) t.

(** Every value given for one of the three options fills the slots of
    its stage, whatever the value. *)
Definition every_override_verbatim (cl : Args.CommandLine) : Prop :=
  let p := processor_of cl in
  (forall v, Args.cl_silence_threshold cl = Some v ->
     silence_filter p
     = silence_stage (silence_duration p) v (silence_duration p) v)
  /\ (forall v, Args.cl_silence_duration cl = Some v ->
     silence_filter p
     = silence_stage v (silence_threshold p) v (silence_threshold p))
  /\ (forall v, Args.cl_target_loudness cl = Some v ->
     loudnorm_filter p = loudnorm_stage v).

(** With no output argument, the output path read as a path has the
    input's parent, the input's stem followed by [_processed] as its
    stem, and the input's suffix as its suffix, whatever the input. *)
Definition default_output_same_extension (cl : Args.CommandLine) : Prop :=
  Args.cl_output cl = None ->
  let p := Pathlib.Path (Args.cl_input cl) in
  let out := Pathlib.Path (output_file_of (Args.parse_args cl)) in
  Pathlib.parent out = Pathlib.parent p
  /\ Pathlib.stem out = (Pathlib.stem p ++ "_processed")%string
  /\ Pathlib.suffix out = Pathlib.suffix p.

(** ** Facts about the string helpers *)

Module PyStrFacts.
Import PyStr.
Local Open Scope string_scope.

Lemma append_assoc (a b c : string) : (a ++ b) ++ c = a ++ (b ++ c).
Proof. induction a as [|x a IH]; simpl; [reflexivity | now rewrite IH]. Qed.

Lemma append_nil_r (a : string) : a ++ "" = a.
Proof. induction a as [|x a IH]; simpl; [reflexivity | now rewrite IH]. Qed.

Lemma length_append (a b : string) :
  String.length (a ++ b) = (String.length a + String.length b)%nat.
Proof. induction a as [|x a IH]; simpl; [reflexivity | now rewrite IH]. Qed.

Lemma mem_append (c : ascii) (a b : string) :
  mem c (a ++ b) = mem c a || mem c b.
Proof.
  induction a as [|x a IH]; simpl; [reflexivity|].
  now rewrite IH, orb_assoc.
Qed.

Lemma take_drop (i : nat) (s : string) : take i s ++ drop i s = s.
Proof.
  revert s; induction i as [|i IH]; intros [|c s]; simpl; try reflexivity.
  now rewrite IH.
Qed.

Lemma mem_take (c : ascii) (i : nat) (s : string) :
  mem c s = false -> mem c (take i s) = false.
Proof.
  intros H. rewrite <- (take_drop i s), mem_append in H.
  now apply orb_false_iff in H.
Qed.

Lemma mem_drop (c : ascii) (i : nat) (s : string) :
  mem c s = false -> mem c (drop i s) = false.
Proof.
  intros H. rewrite <- (take_drop i s), mem_append in H.
  now apply orb_false_iff in H.
Qed.

(** A text without the separator is one field. *)
Lemma split_go_no_sep (sep : ascii) (s cur : string) :
  mem sep s = false -> split_go sep cur s = [cur ++ s].
Proof.
  revert cur; induction s as [|c s IH]; intros cur H; simpl in *.
  - now rewrite append_nil_r.
  - apply orb_false_iff in H as [Hc Hs]. rewrite Hc, IH by assumption.
    now rewrite append_assoc.
Qed.

(** The first separator ends the first field. *)
Lemma split_go_first (sep : ascii) (a b cur : string) :
  mem sep a = false ->
  split_go sep cur (a ++ String sep b) = (cur ++ a) :: split_go sep "" b.
Proof.
  revert cur; induction a as [|c a IH]; intros cur H; simpl in *.
  - now rewrite Ascii.eqb_refl, append_nil_r.
  - apply orb_false_iff in H as [Hc Ha]. rewrite Hc, IH by assumption.
    now rewrite append_assoc.
Qed.

(** No field of a split holds the separator. *)
Lemma split_go_fields (sep : ascii) (s cur x : string) :
  mem sep cur = false -> In x (split_go sep cur s) -> mem sep x = false.
Proof.
  revert cur; induction s as [|c s IH]; intros cur Hcur Hin; simpl in *.
  - destruct Hin as [<-|[]]; assumption.
  - destruct (Ascii.eqb c sep) eqn:E.
    + destruct Hin as [<-|Hin]; [assumption|].
      now apply (IH ""%string).
    + apply (IH (cur ++ String c "")); [|assumption].
      rewrite mem_append, Hcur. simpl. now rewrite E.
Qed.

(** Splitting undoes joining, for fields without the separator. *)
Lemma split_join (sep : ascii) (l : list string) :
  l <> [] ->
  Forall (fun x => mem sep x = false) l ->
  split sep (join (String sep "") l) = l.
Proof.
  intros Hne Hall. unfold split, join.
  induction Hall as [|x l Hx Hall IH]; [contradiction|].
  destruct l as [|y l].
  - simpl. now rewrite split_go_no_sep.
  - change (String.concat (String sep "") (x :: y :: l))
      with (x ++ String sep (String.concat (String sep "") (y :: l))).
    rewrite split_go_first by assumption. simpl (_ ++ x).
    f_equal. apply IH. discriminate.
Qed.

End PyStrFacts.

(** ** Facts about the path model *)

Module PathlibFacts.
Import PyStr PyStrFacts Pathlib.
Local Open Scope string_scope.

Lemma splitroot_root (s : string) :
  fst (splitroot s) = "" \/ fst (splitroot s) = "/" \/ fst (splitroot s) = "//".
Proof.
  unfold splitroot.
  repeat match goal with
         | |- context [match ?x with _ => _ end] => destruct x
         end; simpl; auto.
Qed.

(** What the parser returns is normal. *)
Lemma Path_normal (s : string) : normal_path (Path s).
Proof.
  unfold Path. pose proof (splitroot_root s) as Hr.
  destruct (splitroot s) as [r rel]. simpl in Hr.
  split; [exact Hr|]. simpl.
  apply Forall_forall. intros x Hx. apply filter_In in Hx as [Hin Hk].
  split; [exact Hk|].
  now apply (split_go_fields "/" rel "" x).
Qed.

(** A text without a slash does not start with one. *)
Lemma splitroot_no_slash (s : string) :
  mem "/" s = false -> splitroot s = ("", s).
Proof.
  destruct s as [|c s]; [reflexivity|]. simpl. intros H.
  apply orb_false_iff in H as [Hc _].
  unfold splitroot.
  destruct c as [[] [] [] [] [] [] [] []]; try reflexivity; discriminate.
Qed.

(** A normal component parses to itself. *)
Lemma Path_part (x : string) :
  normal_part x -> Path x = {| root := ""; tail := [x] |}.
Proof.
  intros [Hk Hs]. unfold Path. rewrite splitroot_no_slash by assumption.
  unfold split. rewrite split_go_no_sep by assumption. simpl.
  now rewrite Hk.
Qed.

Lemma filter_normal (t : list string) :
  Forall normal_part t -> filter keep_part t = t.
Proof.
  induction 1 as [|x t [Hk _] _ IH]; simpl; [reflexivity|].
  now rewrite Hk, IH.
Qed.

Lemma normal_parts_no_slash (t : list string) :
  Forall normal_part t -> Forall (fun x => mem "/" x = false) t.
Proof. apply Forall_impl. now intros x [_ H]. Qed.

(** The relative part of a normal path parses back to its components. *)
Lemma split_tail (t : list string) :
  Forall normal_part t ->
  filter keep_part (split "/" (join "/" t)) = t.
Proof.
  intros H. destruct t as [|x t]; [reflexivity|].
  rewrite (split_join "/") by (try discriminate; now apply normal_parts_no_slash).
  now apply filter_normal.
Qed.

(** The joined components of a normal path do not start with a slash. *)
Lemma join_head (t : list string) :
  Forall normal_part t ->
  match join "/" t with
  | String c _ => c <> "/"%char
  | EmptyString => True
  end.
Proof.
  intros H. destruct H as [|x t [Hk Hs] _]; [exact I|].
  unfold join. destruct x as [|c x]; [discriminate|].
  assert (Hc : c <> "/"%char).
  { simpl in Hs. apply orb_false_iff in Hs as [Hc _].
    now apply Ascii.eqb_neq. }
  destruct t; simpl; exact Hc.
Qed.

(** The root is read back in front of a text that starts without a
    slash. *)
Lemma splitroot_anchor (j : string) :
  match j with
  | String c _ => c <> "/"%char
  | EmptyString => True
  end ->
  splitroot j = ("", j)
  /\ splitroot ("/" ++ j) = ("/", j)
  /\ splitroot ("//" ++ j) = ("//", j).
Proof.
  destruct j as [|c j]; [now repeat split|].
  intros Hc. simpl.
  destruct c as [[] [] [] [] [] [] [] []];
    try (now repeat split); now elim Hc.
Qed.

(** [PurePosixPath(str(p)) == p] *)
Lemma Path_str (p : PurePath) : normal_path p -> Path (str p) = p.
Proof.
  destruct p as [r t]. intros [Hr Ht]. simpl in Hr, Ht.
  pose proof (split_tail t Ht) as Hsplit.
  destruct (splitroot_anchor _ (join_head t Ht)) as (H0 & H1 & H2).
  unfold str, Path. simpl root. simpl tail.
  destruct Hr as [-> | [-> | ->]].
  - destruct t as [|x t]; [reflexivity|].
    change ("" ++ join "/" (x :: t)) with (join "/" (x :: t)).
    now rewrite H0, Hsplit.
  - now rewrite H1, Hsplit.
  - now rewrite H2, Hsplit.
Qed.

(** Stem and suffix cut the name in two. *)
Lemma stem_suffix (p : PurePath) : stem p ++ suffix p = name p.
Proof.
  unfold stem, suffix. destruct (suffix_index (name p)).
  - apply take_drop.
  - apply append_nil_r.
Qed.

Lemma last_mem {A} (l : list A) (d : A) : l <> [] -> In (last l d) l.
Proof.
  induction l as [|x l IH]; [contradiction|]. intros _.
  destruct l as [|y l]; [now left|].
  right. apply IH. discriminate.
Qed.

(** The name of a normal path holds no slash. *)
Lemma name_no_slash (p : PurePath) :
  normal_path p -> mem "/" (name p) = false.
Proof.
  intros [_ Ht]. unfold name. destruct (tail p) as [|x t] eqn:E.
  - reflexivity.
  - rewrite Forall_forall in Ht.
    apply (Ht (last (x :: t) "")). apply last_mem. discriminate.
Qed.

(** The output name is a normal component. *)
Lemma processed_name_normal (p : PurePath) :
  normal_path p -> normal_part (processed_name p).
Proof.
  intros Hp. pose proof (name_no_slash p Hp) as Hn.
  unfold processed_name. split.
  - unfold keep_part.
    assert (Hlen : (10 <= String.length
                            (stem p ++ "_processed" ++ suffix p))%nat).
    { rewrite !length_append. simpl. lia. }
    destruct (stem p ++ "_processed" ++ suffix p) as [|c [|d s]];
      simpl in Hlen; try lia.
    simpl. destruct (Ascii.eqb c "."); reflexivity.
  - rewrite !mem_append. unfold stem, suffix.
    destruct (suffix_index (name p)).
    + now rewrite mem_take, mem_drop by assumption.
    + now rewrite Hn.
Qed.

(** The parent of a normal path is normal. *)
Lemma parent_normal (p : PurePath) : normal_path p -> normal_path (parent p).
Proof.
  intros [Hr Ht]. unfold parent. destruct (tail p) as [|x t] eqn:E.
  - split; [assumption | now rewrite E].
  - split; [exact Hr|]. simpl tail.
    apply Forall_forall. intros y Hy. rewrite Forall_forall in Ht.
    apply Ht. clear -Hy. revert x Hy.
    induction t as [|z t IH]; intros x Hy; [contradiction|].
    destruct Hy as [<-|Hy]; [now left | right; now apply IH].
Qed.

(** The parent of a path that got one more component is the path. *)
Lemma parent_snoc (r : string) (t : list string) (x : string) :
  parent {| root := r; tail := (t ++ [x])%list |} = {| root := r; tail := t |}.
Proof.
  unfold parent. cbn [root tail]. destruct (t ++ [x])%list eqn:E.
  - destruct t; discriminate.
  - rewrite <- E, removelast_last. reflexivity.
Qed.

Lemma parent_eta (p : PurePath) :
  {| root := root p; tail := tail (parent p) |} = parent p.
Proof.
  unfold parent. destruct p as [r t]. simpl. now destruct t.
Qed.

(** The path of the default output, parsed back. *)
Lemma default_output_path (input : string) :
  let p := Path input in
  Path (default_output_file input)
  = {| root := root p; tail := (tail (parent p) ++ [processed_name p])%list |}.
Proof.
  intros p. unfold default_output_file. fold p. fold (processed_name p).
  pose proof (Path_normal input) as Hp. fold p in Hp.
  pose proof (processed_name_normal p Hp) as Hk.
  pose proof (parent_normal p Hp) as Hpar.
  assert (Hdiv : truediv (parent p) (processed_name p)
                 = {| root := root p;
                      tail := (tail (parent p) ++ [processed_name p])%list |}).
  { unfold truediv. rewrite (Path_part _ Hk). simpl.
    f_equal. unfold parent. now destruct (tail p). }
  rewrite Hdiv. apply Path_str.
  split; [apply Hp|]. simpl tail.
  apply Forall_app. split; [apply Hpar | now constructor].
Qed.

End PathlibFacts.

(** ** The runs of the script, case by case *)

Module RunFacts.

Ltac monad_unfold :=
  unfold bind, ret, raise, try_except, print, print_size_line, print_exn,
    path_exists, getsize, subprocess_run, read_stream, py_div.

(** [check_ffmpeg] in every world. *)
Lemma check_ffmpeg_cases (w : World) :
  check_ffmpeg w =
  match w_spawn w probe_cmd with
  | Exits c =>
      if (returncode c =? 0)%Z
      then ([EvSpawn probe_cmd true (Exits c)], Ok true)
      else ([EvSpawn probe_cmd true (Exits c);
             EvPrint (Text ffmpeg_not_found_msg)], Ok false)
  | SpawnFails FileNotFoundError =>
      ([EvSpawn probe_cmd true (SpawnFails FileNotFoundError);
        EvPrint (Text ffmpeg_not_found_msg)], Ok false)
  | SpawnFails PermissionError =>
      ([EvSpawn probe_cmd true (SpawnFails PermissionError)],
       Raise (ExOSError PermissionError))
  end.
Proof.
  unfold check_ffmpeg. monad_unfold.
  destruct (w_spawn w probe_cmd) as [[]|c]; try reflexivity.
  destruct (returncode c =? 0)%Z; reflexivity.
Qed.

Lemma check_ffmpeg_ok (w : World) :
  probe_ok w = true ->
  check_ffmpeg w = ([EvSpawn probe_cmd true (w_spawn w probe_cmd)], Ok true).
Proof.
  unfold probe_ok. rewrite check_ffmpeg_cases.
  destruct (w_spawn w probe_cmd) as [e|c]; [discriminate|].
  now intros ->.
Qed.

(** The loop over the stderr lines only prints, and always ends. *)
Lemma scan_silence_prints (lines acc : list string) (w : World) :
  exists ps evs,
    scan_silence lines acc w = (map (fun s => EvPrint (Text s)) ps, Ok evs).
Proof.
  revert acc. induction lines as [|line rest IH]; intros acc; simpl.
  - now exists [], acc.
  - destruct (PyStr.contains "silencedetect" line
              && PyStr.contains "silence_" line).
    + monad_unfold.
      destruct (PyStr.contains "silence_duration" line).
      * destruct (IH (acc ++ [line])) as (ps & evs & ->).
        now exists (line :: ps), evs.
      * destruct (IH acc) as (ps & evs & ->).
        now exists (line :: ps), evs.
    + apply IH.
Qed.

(** [process_audio] when the input is missing. *)
Lemma process_audio_missing (self : VoicePromptProcessor)
  (i o : string) (v : bool) (w : World) :
  w_exists w i = false ->
  process_audio self i o v w
  = ([EvExists i; EvPrint (Text (input_not_found_msg i))], Ok false).
Proof.
  intros H. unfold process_audio. monad_unfold. now rewrite H.
Qed.

(** [process_audio] when the engine cannot be started. *)
Lemma process_audio_unstarted (self : VoicePromptProcessor)
  (i o : string) (v : bool) (w : World) (e : OSError) :
  w_exists w i = true ->
  w_spawn w (final_process_cmd v i (build_filter_chain self) o)
  = SpawnFails e ->
  process_audio self i o v w
  = (EvExists i :: preamble v i o (build_filter_chain self)
       ++ [EvSpawn (final_process_cmd v i (build_filter_chain self) o)
             (negb v) (SpawnFails e)],
     Raise (ExOSError e)).
Proof.
  intros Hex Hsp. unfold process_audio. monad_unfold. rewrite Hex.
  destruct v; cbv beta iota zeta delta [negb]; rewrite Hsp; reflexivity.
Qed.

(** [process_audio] when the engine returns non-zero: the exception
    holds the child's two streams when they were captured, that is in
    quiet mode, and is what the error line interpolates. *)
Lemma process_audio_failed (self : VoicePromptProcessor)
  (i o : string) (v : bool) (w : World) (c : ChildExit) :
  w_exists w i = true ->
  w_spawn w (final_process_cmd v i (build_filter_chain self) o) = Exits c ->
  returncode c <> 0%Z ->
  process_audio self i o v w
  = (EvExists i :: preamble v i o (build_filter_chain self)
       ++ [EvSpawn (final_process_cmd v i (build_filter_chain self) o)
             (negb v) (Exits c);
           EvPrint (Interpolated processing_error_prefix
              (CalledProcessError (returncode c)
                 (final_process_cmd v i (build_filter_chain self) o)
                 (if negb v then Some (child_stdout c) else None)
                 (if negb v then Some (child_stderr c) else None)))],
     Ok false).
Proof.
  intros Hex Hsp Hrc. apply Z.eqb_neq in Hrc.
  unfold process_audio. monad_unfold. rewrite Hex.
  destruct v; cbv beta iota zeta delta [negb]; rewrite Hsp, Hrc; reflexivity.
Qed.

Lemma megabytes_zero (n : N) : Qeq_bool (megabytes n) 0 = (n =? 0)%N.
Proof.
  unfold megabytes.
  destruct (N.eqb_spec n 0) as [->|Hn]; [reflexivity|].
  destruct (Qeq_bool _ 0) eqn:E; [|reflexivity].
  apply Qeq_bool_eq in E. exfalso. apply Hn.
  unfold Qeq, Qdiv, Qmult, Qinv in E. simpl in E. lia.
Qed.

(** The size report in every world. *)
Lemma report_sizes_cases (i o : string) (w : World) :
  report_sizes i o w =
  match w_getsize w i with
  | inl e => ([EvGetsize i], Raise (ExOSError e))
  | inr isz =>
      match w_getsize w o with
      | inl e => ([EvGetsize i; EvGetsize o], Raise (ExOSError e))
      | inr osz =>
          if (isz =? 0)%N
          then ([EvGetsize i; EvGetsize o], Raise ZeroDivisionError)
          else ([EvGetsize i; EvGetsize o;
                 EvPrint (SizeLine (megabytes isz) (megabytes osz)
                            ((megabytes isz - megabytes osz)
                             / megabytes isz * 100)%Q)],
                Ok tt)
      end
  end.
Proof.
  unfold report_sizes. monad_unfold.
  destruct (w_getsize w i) as [e|isz]; [reflexivity|].
  destruct (w_getsize w o) as [e|osz]; [reflexivity|].
  rewrite megabytes_zero. destruct (isz =? 0)%N; reflexivity.
Qed.

(** [process_audio] when the engine returns zero: the sizes are read
    after the child, and the report decides how the call ends. *)
Lemma process_audio_returned (self : VoicePromptProcessor)
  (i o : string) (v : bool) (w : World) (c : ChildExit) :
  w_exists w i = true ->
  w_spawn w (final_process_cmd v i (build_filter_chain self) o) = Exits c ->
  returncode c = 0%Z ->
  process_audio self i o v w
  = (EvExists i :: preamble v i o (build_filter_chain self)
       ++ [EvSpawn (final_process_cmd v i (build_filter_chain self) o)
             (negb v) (Exits c)]
       ++ completion v ++ fst (report_sizes i o w),
     match snd (report_sizes i o w) with
     | Ok _ => Ok true
     | Raise e => Raise e
     end).
Proof.
  intros Hex Hsp Hrc. apply Z.eqb_eq in Hrc.
  rewrite report_sizes_cases.
  unfold process_audio.
  unfold bind at 1. unfold path_exists at 1. rewrite Hex.
  cbv beta iota zeta delta [negb].
  destruct v; cbv beta iota zeta delta [negb].
  - monad_unfold. rewrite Hsp, Hrc. rewrite report_sizes_cases.
    destruct (w_getsize w i) as [e|isz]; [reflexivity|].
    destruct (w_getsize w o) as [e|osz]; [reflexivity|].
    destruct (isz =? 0)%N; reflexivity.
  - monad_unfold. rewrite Hsp, Hrc. rewrite report_sizes_cases.
    destruct (w_getsize w i) as [e|isz]; [reflexivity|].
    destruct (w_getsize w o) as [e|osz]; [reflexivity|].
    destruct (isz =? 0)%N; reflexivity.
Qed.

(** [analyze_silence] in every world. *)
Lemma analyze_silence_cases (self : VoicePromptProcessor) (i : string)
  (w : World) :
  let cmd := analyze_cmd self i in
  match w_spawn w cmd with
  | SpawnFails e =>
      analyze_silence self i w
      = (analysis_header self i ++ [EvSpawn cmd true (SpawnFails e)],
         Raise (ExOSError e))
  | Exits c =>
      match decode_text w (child_stdout c), decode_text w (child_stderr c) with
      | Some out, Some err =>
          if (returncode c =? 0)%Z then
            exists ps n,
              analyze_silence self i w
              = (analysis_header self i
                   ++ EvSpawn cmd true (Exits c)
                   :: map (fun s => EvPrint (Text s)) ps
                   ++ [EvPrint (Text (nl ++ "Total silence periods detected: "
                                       ++ PyStr.of_Z n))],
                 Ok tt)
          else
            analyze_silence self i w
            = (analysis_header self i
                 ++ [EvSpawn cmd true (Exits c);
                     EvPrint (Interpolated analysis_error_prefix
                                (CalledProcessError (returncode c) cmd
                                   (Some out) (Some err)))],
               Ok tt)
      | _, _ =>
          analyze_silence self i w
          = (analysis_header self i ++ [EvSpawn cmd true (Exits c)],
             Raise UnicodeDecodeError)
      end
  end.
Proof.
  intros cmd. unfold analyze_silence, decode_text. fold cmd.
  destruct (w_spawn w cmd) as [e|c] eqn:Hsp.
  - monad_unfold. rewrite Hsp. reflexivity.
  - destruct (w_decode w (child_stdout c)) as [out|] eqn:Hout;
      [destruct (w_decode w (child_stderr c)) as [err|] eqn:Herr|].
    + destruct (returncode c =? 0)%Z eqn:Hrc.
      * destruct (scan_silence_prints
                    (PyStr.split (ascii_of_nat 10) (translate_newlines err))
                    [] w)
          as (ps & evs & Hscan).
        exists ps, (Z.of_nat (length evs)).
        monad_unfold. rewrite Hsp, Hout, Herr, Hrc. cbv beta iota zeta.
        cbn [cp_stderr]. rewrite Hscan. reflexivity.
      * monad_unfold. rewrite Hsp, Hout, Herr, Hrc. reflexivity.
    + monad_unfold. rewrite Hsp, Hout, Herr. reflexivity.
    + monad_unfold. rewrite Hsp, Hout.
      destruct (w_decode w (child_stderr c)); reflexivity.
Qed.

(** A run whose probe fails the handled way. *)
Lemma run_probe_failed (cl : Args.CommandLine) (w : World) :
  probe_fails w ->
  run cl w
  = ([EvSpawn probe_cmd true (w_spawn w probe_cmd);
      EvPrint (Text ffmpeg_not_found_msg)], Exit 1).
Proof.
  intros Hp. unfold run, main. unfold bind at 1.
  rewrite check_ffmpeg_cases.
  destruct Hp as [-> | (c & -> & Hrc)].
  - reflexivity.
  - apply Z.eqb_neq in Hrc. rewrite Hrc. reflexivity.
Qed.

(** A run whose probe raises past the handler. *)
Lemma run_probe_raised (cl : Args.CommandLine) (w : World) :
  w_spawn w probe_cmd = SpawnFails PermissionError ->
  run cl w
  = ([EvSpawn probe_cmd true (SpawnFails PermissionError)],
     Traceback (ExOSError PermissionError)).
Proof.
  intros Hp. unfold run, main. unfold bind at 1.
  rewrite check_ffmpeg_cases, Hp. reflexivity.
Qed.

(** The probe either works, fails the handled way, or raises. *)
Lemma probe_cases (w : World) :
  probe_ok w = true \/ probe_fails w
  \/ w_spawn w probe_cmd = SpawnFails PermissionError.
Proof.
  unfold probe_ok, probe_fails.
  destruct (w_spawn w probe_cmd) as [[]|c]; auto.
  destruct (returncode c =? 0)%Z eqn:E; auto.
  right; left; right. exists c. split; [reflexivity|].
  now apply Z.eqb_neq.
Qed.

(** An analysis run after a working probe. *)
Lemma run_analysis (cl : Args.CommandLine) (w : World) :
  probe_ok w = true ->
  Args.cl_analyze cl = true ->
  run cl w
  = (EvSpawn probe_cmd true (w_spawn w probe_cmd)
       :: fst (analyze_silence (processor_of cl) (Args.cl_input cl) w),
     match snd (analyze_silence (processor_of cl) (Args.cl_input cl) w) with
     | Ok _ => Exit 0
     | Raise e => Traceback e
     end).
Proof.
  intros Hp Ha. unfold run, main. unfold bind at 1.
  rewrite (check_ffmpeg_ok w Hp). cbv beta iota zeta delta [negb].
  cbn [Args.analyze Args.parse_args Args.input]. rewrite Ha.
  unfold bind, ret. fold (processor_of cl).
  destruct (analyze_silence (processor_of cl) (Args.cl_input cl) w)
    as [t [a|e]]; simpl; [rewrite app_nil_r|]; reflexivity.
Qed.

(** A processing run after a working probe. *)
Lemma run_processing (cl : Args.CommandLine) (w : World) :
  probe_ok w = true ->
  Args.cl_analyze cl = false ->
  let call := process_audio (processor_of cl) (Args.cl_input cl)
                (output_file_of (Args.parse_args cl)) (Args.cl_verbose cl) w in
  run cl w
  = (EvSpawn probe_cmd true (w_spawn w probe_cmd) :: fst call,
     match snd call with
     | Ok success => Exit (if success then 0 else 1)
     | Raise e => Traceback e
     end).
Proof.
  intros Hp Ha call. unfold run, main. unfold bind at 1.
  rewrite (check_ffmpeg_ok w Hp). cbv beta iota zeta delta [negb].
  cbn [Args.analyze Args.parse_args Args.input Args.verbose]. rewrite Ha.
  unfold bind, ret. fold (processor_of cl).
  subst call.
  destruct (process_audio (processor_of cl) (Args.cl_input cl)
              (output_file_of (Args.parse_args cl)) (Args.cl_verbose cl) w)
    as [t [b|e]]; simpl; [rewrite app_nil_r|]; reflexivity.
Qed.

End RunFacts.

(** ** The filter chain *)

Section FilterChain.
Local Open Scope string_scope.

Lemma join_two (sep x y : string) (l : list string) :
  PyStr.join sep (x :: y :: l) = x ++ sep ++ PyStr.join sep (y :: l).
Proof. reflexivity. Qed.

(** Joining the equalizers in front of the last two stages. *)
Lemma join_equalizers (eqs : list string) (c l : string) :
  PyStr.join "," (eqs ++ [c; l])%list = with_separators eqs (c ++ "," ++ l).
Proof.
  induction eqs as [|e eqs IH]; [reflexivity|].
  change (with_separators (e :: eqs) (c ++ "," ++ l))
    with (e ++ "," ++ with_separators eqs (c ++ "," ++ l)).
  rewrite <- IH.
  change ((e :: eqs) ++ [c; l])%list with (e :: (eqs ++ [c; l]))%list.
  destruct (eqs ++ [c; l])%list eqn:E.
  - destruct eqs; discriminate.
  - reflexivity.
Qed.

Lemma filters_shape (self : VoicePromptProcessor) :
  filters self
  = (noise_reduction self :: silence_filter self
       :: eq_filters self ++ [compressor self; loudnorm_filter self])%list.
Proof.
  unfold filters. cbn [app]. now rewrite <- app_assoc.
Qed.

Lemma chain_text (self : VoicePromptProcessor) :
  build_filter_chain self
  = noise_reduction self ++ "," ++ silence_filter self ++ ","
    ++ with_separators (eq_filters self)
         (compressor self ++ "," ++ loudnorm_filter self).
Proof.
  unfold build_filter_chain. rewrite filters_shape.
  rewrite join_two.
  destruct (eq_filters self ++ [compressor self; loudnorm_filter self])%list
    as [|x rest] eqn:E.
  - destruct (eq_filters self); discriminate.
  - rewrite join_two, <- E, join_equalizers. reflexivity.
Qed.

(** What the three guarded assignments leave in the processor. *)
Lemma override_fields (args : Args.Namespace) (p : VoicePromptProcessor) :
  silence_threshold (override args p)
  = (if PyStr.truthy (Args.silence_threshold args)
     then Args.silence_threshold args else silence_threshold p)
  /\ silence_duration (override args p)
     = (if PyStr.truthy (Args.silence_duration args)
        then Args.silence_duration args else silence_duration p)
  /\ target_loudness (override args p)
     = (if PyStr.truthy (Args.target_loudness args)
        then Args.target_loudness args else target_loudness p)
  /\ max_silence_duration (override args p) = max_silence_duration p
  /\ eq_filters (override args p) = eq_filters p
  /\ noise_reduction (override args p) = noise_reduction p
  /\ compressor (override args p) = compressor p.
Proof.
  unfold override.
  destruct (PyStr.truthy (Args.silence_threshold args)),
           (PyStr.truthy (Args.silence_duration args)),
           (PyStr.truthy (Args.target_loudness args));
    cbn; repeat split; reflexivity.
Qed.

Lemma truthy_nonempty (v : string) : v <> "" -> PyStr.truthy v = true.
Proof. destruct v; [congruence | reflexivity]. Qed.

(** C3.  For every processor configuration, the list of stages is: the
    noise-reduction stage, the silence-removal stage, the equalizers in
    their listed order, the compressor, the loudness normalization; and
    the chain text is these stages in that order, a comma after each
    but the last. *)
Theorem chain_stage_order (self : VoicePromptProcessor) :
  filters self
  = (noise_reduction self :: silence_filter self
       :: eq_filters self ++ [compressor self; loudnorm_filter self])%list
  /\ build_filter_chain self
     = noise_reduction self ++ "," ++ silence_filter self ++ ","
       ++ with_separators (eq_filters self)
            (compressor self ++ "," ++ loudnorm_filter self).
Proof.
  split; [apply filters_shape | apply chain_text].
Qed.

(** C10.  Two configurations that differ at most in
    [max_silence_duration] build the same chain, and the silence stage
    takes both its [start_silence] and its [stop_silence] from
    [silence_duration]. *)
Theorem chain_ignores_max_silence (p q : VoicePromptProcessor) :
  same_but_max_silence p q ->
  build_filter_chain p = build_filter_chain q
  /\ silence_filter p
     = silence_stage (silence_duration p) (silence_threshold p)
         (silence_duration p) (silence_threshold p).
Proof.
  intros (Ht & Hd & Hl & He & Hn & Hc). split; [|reflexivity].
  rewrite !chain_text. unfold silence_filter, loudnorm_filter.
  now rewrite Ht, Hd, Hl, He, Hn, Hc.
Qed.

Lemma chain_ignores_max_silence_witness :
  same_but_max_silence init
    (mkProcessor "-40dB" "0.5" "30" "-16" (eq_filters init)
       (noise_reduction init) (compressor init))
  /\ build_filter_chain init
     = build_filter_chain
         (mkProcessor "-40dB" "0.5" "30" "-16" (eq_filters init)
            (noise_reduction init) (compressor init)).
Proof.
  assert (H : same_but_max_silence init
                (mkProcessor "-40dB" "0.5" "30" "-16" (eq_filters init)
                   (noise_reduction init) (compressor init))).
  { unfold same_but_max_silence. simpl. repeat split; reflexivity. }
  split; [exact H|].
  exact (proj1 (chain_ignores_max_silence _ _ H)).
Defined.

(** C5, as written, fails: an empty value given on the command line is
    not what the chain holds. *)
Lemma empty_override_not_verbatim :
  ~ every_override_verbatim
      (Args.mkCommandLine "talk.mp3" None false false (Some "") None None).
Proof.
  intros (H & _). specialize (H "" eq_refl).
  vm_compute in H. discriminate H.
Qed.

(** C5, amended.  Every non-empty value given for [--silence-threshold]
    fills the [start_threshold] and [stop_threshold] slots of the
    silence stage, every non-empty [--silence-duration] its
    [start_silence] and [stop_silence] slots, every non-empty
    [--target-loudness] the integrated-target slot of the loudness
    stage; these are the stages of the chain the run builds. *)
Theorem nonempty_override_verbatim (cl : Args.CommandLine) :
  let p := processor_of cl in
  (forall v, Args.cl_silence_threshold cl = Some v -> v <> "" ->
     silence_filter p
     = silence_stage (silence_duration p) v (silence_duration p) v)
  /\ (forall v, Args.cl_silence_duration cl = Some v -> v <> "" ->
     silence_filter p
     = silence_stage v (silence_threshold p) v (silence_threshold p))
  /\ (forall v, Args.cl_target_loudness cl = Some v -> v <> "" ->
     loudnorm_filter p = loudnorm_stage v)
  /\ build_filter_chain p
     = noise_reduction p ++ "," ++ silence_filter p ++ ","
       ++ with_separators (eq_filters p)
            (compressor p ++ "," ++ loudnorm_filter p).
Proof.
  intros p. subst p. unfold processor_of.
  destruct (override_fields (Args.parse_args cl) init)
    as (Ht & Hd & Hl & _).
  cbn [Args.parse_args Args.silence_threshold Args.silence_duration
       Args.target_loudness] in Ht, Hd, Hl.
  repeat split.
  - intros v Hv Hne. rewrite Hv in Ht. cbn [Args.default] in Ht.
    rewrite (truthy_nonempty v Hne) in Ht.
    unfold silence_filter. rewrite Ht. reflexivity.
  - intros v Hv Hne. rewrite Hv in Hd. cbn [Args.default] in Hd.
    rewrite (truthy_nonempty v Hne) in Hd.
    unfold silence_filter. rewrite Hd. reflexivity.
  - intros v Hv Hne. rewrite Hv in Hl. cbn [Args.default] in Hl.
    rewrite (truthy_nonempty v Hne) in Hl.
    unfold loudnorm_filter. rewrite Hl. reflexivity.
  - apply chain_text.
Qed.

Lemma nonempty_override_verbatim_witness :
  let cl := Args.mkCommandLine "talk.mp3" None false false
              (Some "-50dB") (Some "1.5") (Some "-23") in
  silence_filter (processor_of cl) = silence_stage "1.5" "-50dB" "1.5" "-50dB"
  /\ loudnorm_filter (processor_of cl) = loudnorm_stage "-23".
Proof.
  intros cl.
  destruct (nonempty_override_verbatim cl) as (Ht & _ & Hl & _).
  split.
  - exact (Ht "-50dB" eq_refl ltac:(discriminate)).
  - exact (Hl "-23" eq_refl ltac:(discriminate)).
Defined.

End FilterChain.

(** ** The default output path *)

Section OutputPath.
Import PyStr PyStrFacts Pathlib PathlibFacts.
Local Open Scope string_scope.

Lemma rfind_append (c : ascii) (a b : string) :
  rfind c (a ++ b)
  = match rfind c b with
    | Some j => Some (String.length a + j)%nat
    | None => rfind c a
    end.
Proof.
  induction a as [|d a IH]; simpl.
  - now destruct (rfind c b).
  - rewrite IH. now destruct (rfind c b).
Qed.

Lemma rfind_drop (c : ascii) (s : string) (i : nat) :
  rfind c s = Some i ->
  rfind c (drop i s) = Some 0%nat /\ (i < String.length s)%nat.
Proof.
  revert i. induction s as [|d s IH]; intros i H; simpl in H; [discriminate|].
  destruct (rfind c s) as [j|] eqn:E.
  - injection H as <-. destruct (IH j eq_refl) as [Hd Hl].
    simpl. split; [exact Hd | lia].
  - destruct (Ascii.eqb d c) eqn:Ec; [|discriminate].
    injection H as <-. simpl. rewrite E, Ec. split; [reflexivity | lia].
Qed.

Lemma length_take (i : nat) (s : string) :
  (i <= String.length s)%nat -> String.length (take i s) = i.
Proof.
  revert s. induction i as [|i IH]; intros [|c s] H; simpl in *;
    try reflexivity; try lia.
  rewrite IH; lia.
Qed.

Lemma drop_append (a b : string) (k : nat) :
  drop (String.length a + k) (a ++ b) = drop k b.
Proof. induction a as [|d a IH]; simpl; [reflexivity | exact IH]. Qed.

Lemma take_append (a b : string) (k : nat) :
  take (String.length a + k) (a ++ b) = a ++ take k b.
Proof. induction a as [|d a IH]; simpl; [reflexivity | now rewrite IH]. Qed.

(** Where the suffix starts in a name that got [_processed] before its
    suffix; [i] is where it started before. *)
Lemma suffix_index_processed (nm : string) (i : nat) :
  suffix_index nm = Some i ->
  suffix_index (take i nm ++ "_processed" ++ drop i nm) = Some (i + 10)%nat.
Proof.
  unfold suffix_index. destruct (rfind "." nm) as [j|] eqn:Hr; [|discriminate].
  destruct ((0 <? j) && (j <? String.length nm - 1))%nat eqn:Ht; [|discriminate].
  intros H; injection H as <-.
  apply andb_true_iff in Ht as [H0 H1].
  apply Nat.ltb_lt in H0, H1.
  destruct (rfind_drop _ _ _ Hr) as [Hd Hl].
  rewrite !rfind_append, Hd. simpl (String.length "_processed").
  rewrite length_take by lia.
  replace (j + (10 + 0))%nat with (j + 10)%nat by lia.
  rewrite !length_append, length_take by lia.
  assert (Hlen : String.length nm
                 = (j + String.length (drop j nm))%nat).
  { rewrite <- (take_drop j nm) at 1. rewrite length_append, length_take; lia. }
  simpl (String.length "_processed").
  assert (T : ((0 <? j + 10)
               && (j + 10 <? j + (10 + String.length (drop j nm)) - 1))%nat
              = true).
  { apply andb_true_iff; split; apply Nat.ltb_lt; lia. }
  now rewrite T.
Qed.

(** Without a suffix, and unless the name ends in a dot, the lengthened
    name has no suffix either. *)
Lemma suffix_index_plain (nm : string) :
  suffix_index nm = None ->
  ends_with_dot nm = false ->
  suffix_index (nm ++ "_processed") = None.
Proof.
  unfold suffix_index, ends_with_dot. rewrite rfind_append.
  change (rfind "." "_processed") with (@None nat).
  destruct (rfind "." nm) as [j|] eqn:Hr; [|reflexivity].
  destruct (rfind_drop _ _ _ Hr) as [_ Hl].
  rewrite length_append. simpl (String.length "_processed").
  destruct ((0 <? j) && (j <? String.length nm - 1))%nat eqn:Ht; [discriminate|].
  intros _ He. apply Nat.eqb_neq in He.
  apply andb_false_iff in Ht as [Ht|Ht]; apply Nat.ltb_ge in Ht.
  - assert (j = 0%nat) as -> by lia. reflexivity.
  - lia.
Qed.

(** What [pathlib] reads back from the output name. *)
Lemma processed_name_parts (p q : PurePath) :
  name q = processed_name p ->
  ends_with_dot (name p) = false ->
  stem q = stem p ++ "_processed" /\ suffix q = suffix p.
Proof.
  intros Hq Hdot. unfold stem at 1, suffix at 1. rewrite Hq.
  unfold processed_name, stem, suffix.
  destruct (suffix_index (name p)) as [i|] eqn:Hi.
  - rewrite (suffix_index_processed _ _ Hi).
    assert (Hl : String.length (take i (name p)) = i).
    { apply length_take. unfold suffix_index in Hi.
      destruct (rfind "." (name p)) as [j|] eqn:Hr; [|discriminate].
      destruct (rfind_drop _ _ _ Hr) as [_ Hlt].
      destruct ((0 <? j) && (j <? String.length (name p) - 1))%nat;
        [|discriminate].
      injection Hi as <-. lia. }
    replace (i + 10)%nat
      with (String.length (take i (name p)) + 10)%nat by now rewrite Hl.
    rewrite take_append, drop_append. split; reflexivity.
  - rewrite append_nil_r.
    rewrite (suffix_index_plain _ Hi Hdot). split; reflexivity.
Qed.

(** The text of a path that has a component. *)
Lemma str_parts (r : string) (t : list string) :
  t <> [] -> str {| root := r; tail := t |} = r ++ join "/" t.
Proof.
  intros Ht. unfold str. cbn [root tail].
  destruct r; [|reflexivity]. destruct t; [contradiction | reflexivity].
Qed.

(** The text of the default output, from the parsed input. *)
Lemma default_output_text (input : string) :
  let p := Path input in
  default_output_file input
  = str {| root := root p;
           tail := (tail (parent p) ++ [processed_name p])%list |}.
Proof.
  intros p. unfold default_output_file. fold p. fold (processed_name p).
  pose proof (Path_normal input) as Hp. fold p in Hp.
  pose proof (processed_name_normal p Hp) as Hk.
  f_equal. unfold truediv. rewrite (Path_part _ Hk). cbn [root tail truthy].
  f_equal. unfold parent. now destruct (tail p).
Qed.

(** The output name of a path is made from the text of its name. *)
Lemma processed_name_text (p : PurePath) :
  processed_name p = processed_file_name (name p).
Proof.
  unfold processed_name, processed_file_name, stem, suffix.
  destruct (suffix_index (name p)); [reflexivity|].
  now rewrite append_nil_r.
Qed.

(** The default output of an input written in normal form: the same
    root and directories, and the new file name. *)
Lemma default_output_normal (r : string) (dirs : list string) (nm : string) :
  r = "" \/ r = "/" \/ r = "//" ->
  Forall normal_part (dirs ++ [nm])%list ->
  default_output_file (r ++ join "/" (dirs ++ [nm])%list)
  = r ++ join "/" (dirs ++ [processed_file_name nm])%list.
Proof.
  intros Hr Hn.
  set (q := {| root := r; tail := (dirs ++ [nm])%list |}).
  assert (Hq : normal_path q) by (split; assumption).
  assert (Hs : str q = r ++ join "/" (dirs ++ [nm])%list).
  { apply str_parts. now destruct dirs. }
  rewrite <- Hs, default_output_text. cbv zeta. rewrite (Path_str q Hq).
  rewrite processed_name_text.
  assert (Hname : name q = nm) by (unfold name, q; cbn [tail]; apply last_last).
  assert (Hpar : tail (parent q) = dirs).
  { unfold q. now rewrite parent_snoc. }
  rewrite Hname, Hpar. cbn [root q].
  apply str_parts. now destruct dirs.
Qed.

(** The default output reads the input as a path only: it is the
    default output of the input written in normal form. *)
Lemma default_output_normalises (input : string) :
  default_output_file input = default_output_file (str (Path input)).
Proof.
  unfold default_output_file.
  now rewrite (Path_str _ (Path_normal input)).
Qed.

(** C4, as written, fails: for a file name that ends in a dot, the
    output has another stem and another extension than the claim
    says. *)
Lemma trailing_dot_changes_extension :
  ~ default_output_same_extension
      (Args.mkCommandLine "talk." None false false None None None).
Proof.
  intros H. destruct (H eq_refl) as (_ & _ & Hsuffix).
  vm_compute in Hsuffix. discriminate Hsuffix.
Qed.

(** C4, amended.  When no output path is given, the output path that
    [main] computes is in the parent directory of the input, under the
    same root, with the file name made of the input's stem, then
    [_processed], then the input's suffix, where stem and suffix are
    the two parts of the input's file name.  As text: the input is
    read as a path only, and for an input written as a root,
    directories and a name, the output is the same root and
    directories with [_processed] put in front of the name's suffix.
    Unless the input's name ends in a dot, the output's own stem is the
    input's stem followed by [_processed] and its suffix is the
    input's suffix. *)
Theorem default_output_beside_input (cl : Args.CommandLine) :
  Args.cl_output cl = None ->
  let p := Path (Args.cl_input cl) in
  let out := Path (output_file_of (Args.parse_args cl)) in
  root out = root p
  /\ parent out = parent p
  /\ name out = stem p ++ "_processed" ++ suffix p
  /\ stem p ++ suffix p = name p
  /\ (ends_with_dot (name p) = false ->
      stem out = stem p ++ "_processed" /\ suffix out = suffix p)
  /\ output_file_of (Args.parse_args cl) = default_output_file (str p)
  /\ (forall r dirs nm,
        r = "" \/ r = "/" \/ r = "//" ->
        Forall normal_part (dirs ++ [nm])%list ->
        Args.cl_input cl = r ++ join "/" (dirs ++ [nm])%list ->
        output_file_of (Args.parse_args cl)
        = r ++ join "/" (dirs ++ [processed_file_name nm])%list).
Proof.
  intros Hout p out.
  assert (Hdef : output_file_of (Args.parse_args cl)
                 = default_output_file (Args.cl_input cl)).
  { unfold output_file_of. cbn [Args.parse_args Args.output Args.input].
    now rewrite Hout. }
  assert (Hpath : out = {| root := root p;
                           tail := (tail (parent p) ++ [processed_name p])%list |}).
  { subst out. rewrite Hdef. apply default_output_path. }
  assert (Hname : name out = processed_name p).
  { rewrite Hpath. unfold name. cbn [tail]. apply last_last. }
  repeat split.
  - now rewrite Hpath.
  - rewrite Hpath, parent_snoc. apply parent_eta.
  - exact Hname.
  - apply stem_suffix.
  - now apply (processed_name_parts p out Hname).
  - now apply (processed_name_parts p out Hname).
  - rewrite Hdef. apply default_output_normalises.
  - intros r dirs nm Hr Hn Hin. rewrite Hdef, Hin.
    now apply default_output_normal.
Qed.

Lemma default_output_beside_input_witness :
  let cl := Args.mkCommandLine "/srv/rec.d/talk.tar.gz" None false false
              None None None in
  Args.cl_output cl = None
  /\ output_file_of (Args.parse_args cl) = "/srv/rec.d/talk.tar_processed.gz"
  /\ default_output_file "./rec//talk.mp3" = "rec/talk_processed.mp3"
  /\ default_output_file "talk.mp3" = "talk_processed.mp3".
Proof.
  intros cl. split; [reflexivity|]. split; [|split; reflexivity].
  apply (proj2 (proj2 (proj2 (proj2 (proj2 (proj2
           (default_output_beside_input cl eq_refl))))))
           "/" ["srv"; "rec.d"] "talk.tar.gz").
  - right; left; reflexivity.
  - repeat constructor.
  - reflexivity.
Defined.

(** A name that ends in a dot: [pathlib] reads no suffix from the input
    name and a suffix from the output name. *)
Example trailing_dot_output :
  default_output_file "talk." = "talk._processed"
  /\ suffix (Path "talk.") = ""
  /\ suffix (Path "talk._processed") = "._processed".
Proof. repeat split; reflexivity. Qed.

End OutputPath.

(** ** Runs: probe, analysis, processing *)

Section Runs.
Import RunFacts.

Lemma spawned_app (a b : list event) :
  spawned (a ++ b) = spawned a ++ spawned b.
Proof.
  induction a as [|[] a IH]; simpl; [reflexivity| | | |]; now rewrite IH.
Qed.

Lemma spawned_prints (ps : list string) :
  spawned (map (fun s => EvPrint (Text s)) ps) = [].
Proof. induction ps; simpl; auto. Qed.

Lemma touches_prints (ps : list string) :
  existsb touches_files (map (fun s => EvPrint (Text s)) ps) = false.
Proof. induction ps; simpl; auto. Qed.

(** [analyze_silence] spawns its own command and nothing else, and does
    not look at the filesystem. *)
Lemma analyze_silence_effects (self : VoicePromptProcessor) (i : string)
  (w : World) :
  spawned (fst (analyze_silence self i w)) = [analyze_cmd self i]
  /\ existsb touches_files (fst (analyze_silence self i w)) = false.
Proof.
  pose proof (analyze_silence_cases self i w) as H. cbv zeta in H.
  destruct (w_spawn w (analyze_cmd self i)) as [e|c].
  - rewrite H. split; reflexivity.
  - destruct (decode_text w (child_stdout c)) as [out|];
      [destruct (decode_text w (child_stderr c)) as [err|]|];
      try (rewrite H; split; reflexivity).
    destruct (returncode c =? 0)%Z.
    + destruct H as (ps & n & ->). cbn [fst]. split.
      * rewrite spawned_app. cbn [spawned analysis_header app].
        now rewrite spawned_app, spawned_prints.
      * rewrite existsb_app. cbn [existsb analysis_header touches_files orb].
        now rewrite existsb_app, touches_prints.
    + rewrite H. split; reflexivity.
Qed.

Lemma final_process_cmd_length (v : bool) (i f o : string) :
  length (final_process_cmd v i f o) = if v then 15%nat else 17%nat.
Proof. destruct v; reflexivity. Qed.

(** A trace that spawned the probe at most, or the probe and then the
    analysis command, spawned no processing command. *)
Lemma no_processing_among (self : VoicePromptProcessor) (i : string)
  (t : list event) :
  spawned t = [probe_cmd] \/ spawned t = [probe_cmd; analyze_cmd self i] ->
  ~ processing_spawned i t.
Proof.
  intros Hs (v & f & o & Hin).
  pose proof (final_process_cmd_length v i f o) as Hl.
  destruct Hs as [Hs|Hs]; rewrite Hs in Hin; simpl in Hin;
    repeat (destruct Hin as [Hin|Hin]; [rewrite <- Hin in Hl|]);
    try contradiction; destruct v; discriminate Hl.
Qed.

(** The commands an analysis run spawns. *)
Lemma analysis_run_effects (cl : Args.CommandLine) (w : World) :
  Args.cl_analyze cl = true ->
  (spawned (fst (run cl w)) = [probe_cmd]
   \/ spawned (fst (run cl w)) = [probe_cmd; analysis_cmd cl])
  /\ existsb touches_files (fst (run cl w)) = false.
Proof.
  intros Ha. destruct (probe_cases w) as [Hp | [Hp | Hp]].
  - rewrite (run_analysis cl w Hp Ha). cbn [fst spawned existsb touches_files orb].
    destruct (analyze_silence_effects (processor_of cl) (Args.cl_input cl) w)
      as [-> ->].
    split; [right|]; reflexivity.
  - rewrite (run_probe_failed cl w Hp). split; [left|]; reflexivity.
  - rewrite (run_probe_raised cl w Hp). split; [left|]; reflexivity.
Qed.

(** An analysis run does not read the output argument. *)
Lemma analysis_run_ignores_output (cl : Args.CommandLine) (w : World)
  (o : option string) :
  Args.cl_analyze cl = true -> run (with_output o cl) w = run cl w.
Proof.
  intros Ha. destruct (probe_cases w) as [Hp | [Hp | Hp]].
  - rewrite (run_analysis cl w Hp Ha).
    now rewrite (run_analysis (with_output o cl) w Hp Ha).
  - now rewrite !(run_probe_failed _ w Hp).
  - now rewrite !(run_probe_raised _ w Hp).
Qed.

(** C8.  When the probe fails (no engine binary, or a non-zero status),
    the run consists of the probe and the engine-not-available message
    and exits with status 1: no input validation, no analysis and no
    processing invocation take place. *)
Theorem probe_failure_ends_run (cl : Args.CommandLine) (w : World) :
  probe_fails w ->
  run cl w
  = ([EvSpawn probe_cmd true (w_spawn w probe_cmd);
      EvPrint (Text ffmpeg_not_found_msg)], Exit 1)
  /\ exit_status (snd (run cl w)) <> 0%Z
  /\ spawned (fst (run cl w)) = [probe_cmd]
  /\ existsb touches_files (fst (run cl w)) = false.
Proof.
  intros Hp. rewrite (run_probe_failed cl w Hp).
  repeat split. discriminate.
Qed.

Lemma probe_failure_ends_run_witness :
  let cl := Args.mkCommandLine "talk.mp3" None false false None None None in
  let w := mkWorld (fun _ => SpawnFails FileNotFoundError)
             (fun _ => true) (fun _ => inr 1000%N) in
  probe_fails w /\ snd (run cl w) = Exit 1.
Proof.
  intros cl w.
  assert (H : probe_fails w) by (left; reflexivity).
  split; [exact H|].
  exact (f_equal snd (proj1 (probe_failure_ends_run cl w H))).
Defined.

(** C6.  In analysis mode the run spawns the probe and at most the
    analysis command, whose only output is the null muxer on [-]; it
    spawns no processing command, never reads the filesystem itself,
    and runs the same whatever the output argument is, whether the
    analysis child succeeds or fails. *)
Theorem analysis_never_processes (cl : Args.CommandLine) (w : World) :
  Args.cl_analyze cl = true ->
  (spawned (fst (run cl w)) = [probe_cmd]
   \/ spawned (fst (run cl w)) = [probe_cmd; analysis_cmd cl])
  /\ (exists af, analysis_cmd cl
        = ["ffmpeg"; "-i"; Args.cl_input cl; "-af"; af; "-f"; "null"; "-"])
  /\ ~ processing_spawned (Args.cl_input cl) (fst (run cl w))
  /\ existsb touches_files (fst (run cl w)) = false
  /\ (forall o, run (with_output o cl) w = run cl w).
Proof.
  intros Ha. destruct (analysis_run_effects cl w Ha) as [Hs Ht].
  split; [exact Hs|]. split; [eexists; reflexivity|].
  split; [now apply (no_processing_among (processor_of cl))|].
  split; [exact Ht|].
  intros o. now apply analysis_run_ignores_output.
Qed.

Lemma analysis_never_processes_witness :
  let cl := Args.mkCommandLine "talk.mp3" (Some "out.mp3") false true
              None None None in
  let w := sample_world (Exits (mkChildExit 1 "" "talk.mp3: Invalid data"))
             true 2000 1000 "talk.mp3" in
  Args.cl_analyze cl = true
  /\ ~ processing_spawned "talk.mp3" (fst (run cl w)).
Proof.
  intros cl w. split; [reflexivity|].
  exact (proj1 (proj2 (proj2 (analysis_never_processes cl w eq_refl)))).
Defined.

(** A processing run with a missing input. *)
Lemma run_missing (cl : Args.CommandLine) (w : World) :
  probe_ok w = true ->
  Args.cl_analyze cl = false ->
  w_exists w (Args.cl_input cl) = false ->
  run cl w
  = ([EvSpawn probe_cmd true (w_spawn w probe_cmd);
      EvExists (Args.cl_input cl);
      EvPrint (Text (input_not_found_msg (Args.cl_input cl)))], Exit 1).
Proof.
  intros Hp Ha Hex. pose proof (run_processing cl w Hp Ha) as Hr.
  cbv zeta in Hr. rewrite process_audio_missing in Hr by assumption.
  exact Hr.
Qed.

(** A processing run whose engine child returns non-zero. *)
Lemma run_failed (cl : Args.CommandLine) (w : World) (c : ChildExit) :
  probe_ok w = true ->
  Args.cl_analyze cl = false ->
  w_exists w (Args.cl_input cl) = true ->
  w_spawn w (engine_cmd cl) = Exits c ->
  returncode c <> 0%Z ->
  run cl w
  = (EvSpawn probe_cmd true (w_spawn w probe_cmd)
       :: EvExists (Args.cl_input cl)
       :: preamble (Args.cl_verbose cl) (Args.cl_input cl)
            (output_file_of (Args.parse_args cl))
            (build_filter_chain (processor_of cl))
       ++ [EvSpawn (engine_cmd cl) (negb (Args.cl_verbose cl)) (Exits c);
           EvPrint (Interpolated processing_error_prefix
                      (engine_error cl c))],
     Exit 1).
Proof.
  intros Hp Ha Hex Hsp Hrc. pose proof (run_processing cl w Hp Ha) as Hr.
  cbv zeta in Hr.
  rewrite (process_audio_failed _ _ _ _ _ c Hex Hsp Hrc) in Hr.
  exact Hr.
Qed.

(** A processing run whose engine child returns zero and whose sizes
    can be compared. *)
Lemma run_succeeded (cl : Args.CommandLine) (w : World) (c : ChildExit)
  (isz osz : N) :
  probe_ok w = true ->
  Args.cl_analyze cl = false ->
  w_exists w (Args.cl_input cl) = true ->
  w_spawn w (engine_cmd cl) = Exits c ->
  returncode c = 0%Z ->
  w_getsize w (Args.cl_input cl) = inr isz ->
  w_getsize w (output_file_of (Args.parse_args cl)) = inr osz ->
  isz <> 0%N ->
  run cl w
  = ((EvSpawn probe_cmd true (w_spawn w probe_cmd)
        :: EvExists (Args.cl_input cl)
        :: preamble (Args.cl_verbose cl) (Args.cl_input cl)
             (output_file_of (Args.parse_args cl))
             (build_filter_chain (processor_of cl)))
       ++ EvSpawn (engine_cmd cl) (negb (Args.cl_verbose cl)) (Exits c)
       :: completion (Args.cl_verbose cl)
       ++ [EvGetsize (Args.cl_input cl);
           EvGetsize (output_file_of (Args.parse_args cl));
           EvPrint (SizeLine (megabytes isz) (megabytes osz)
                      ((megabytes isz - megabytes osz)
                       / megabytes isz * 100)%Q)],
     Exit 0).
Proof.
  intros Hp Ha Hex Hsp Hrc Hi Ho Hnz.
  pose proof (run_processing cl w Hp Ha) as Hr. cbv zeta in Hr.
  rewrite (process_audio_returned _ _ _ _ _ c Hex Hsp Hrc) in Hr.
  rewrite report_sizes_cases, Hi, Ho in Hr.
  apply N.eqb_neq in Hnz. rewrite Hnz in Hr. cbn [fst snd] in Hr.
  rewrite Hr. reflexivity.
Qed.

(** The megabyte computation against the byte formula. *)
Lemma reduction_exact (isz osz : N) :
  isz <> 0%N ->
  ((megabytes isz - megabytes osz) / megabytes isz * 100
   == reduction_formula isz osz)%Q.
Proof.
  intros Hnz. unfold megabytes, reduction_formula.
  assert (Hq : ~ (inject_Z (Z.of_N isz) == 0)%Q).
  { unfold Qeq. simpl. lia. }
  field. exact Hq.
Qed.

(** C7.  In a processing run whose child returns zero, with both sizes
    readable and a non-empty input, the two sizes are read after the
    engine child has exited, the run exits with 0, and the reduction it
    reports equals (input bytes - output bytes) / input bytes * 100 over
    the rationals. *)
Theorem size_reduction_reported (cl : Args.CommandLine) (w : World)
  (c : ChildExit) (isz osz : N) :
  probe_ok w = true ->
  Args.cl_analyze cl = false ->
  w_exists w (Args.cl_input cl) = true ->
  w_spawn w (engine_cmd cl) = Exits c ->
  returncode c = 0%Z ->
  w_getsize w (Args.cl_input cl) = inr isz ->
  w_getsize w (output_file_of (Args.parse_args cl)) = inr osz ->
  isz <> 0%N ->
  exists before reduction,
    run cl w
    = (before
         ++ EvSpawn (engine_cmd cl) (negb (Args.cl_verbose cl)) (Exits c)
         :: completion (Args.cl_verbose cl)
         ++ [EvGetsize (Args.cl_input cl);
             EvGetsize (output_file_of (Args.parse_args cl));
             EvPrint (SizeLine (megabytes isz) (megabytes osz) reduction)],
       Exit 0)
    /\ (reduction == reduction_formula isz osz)%Q.
Proof.
  intros Hp Ha Hex Hsp Hrc Hi Ho Hnz.
  eexists. eexists. split.
  - apply (run_succeeded cl w c isz osz); assumption.
  - now apply reduction_exact.
Qed.

Lemma size_reduction_reported_witness :
  let cl := Args.mkCommandLine "talk.mp3" None false false None None None in
  let w := sample_world (Exits (mkChildExit 0 "" "")) true 2000 1000
             "talk.mp3" in
  exists before reduction,
    run cl w
    = (before
         ++ EvSpawn (engine_cmd cl) true (Exits (mkChildExit 0 "" ""))
         :: [EvGetsize "talk.mp3"; EvGetsize "talk_processed.mp3";
             EvPrint (SizeLine (megabytes 2000) (megabytes 1000) reduction)],
       Exit 0)
    /\ (reduction == 50)%Q.
Proof.
  intros cl w.
  destruct (size_reduction_reported cl w (mkChildExit 0 "" "") 2000 1000
              eq_refl eq_refl eq_refl eq_refl eq_refl eq_refl eq_refl
              ltac:(discriminate))
    as (before & reduction & Hrun & Hred).
  exists before, reduction. split; [exact Hrun|].
  rewrite Hred. reflexivity.
Defined.

(** C9.  What the code does where the claim fails.  In a quiet
    processing run whose child returns non-zero, the child's streams
    are captured, so nothing of the child reaches the user directly;
    the script prints one line, the fixed prefix followed by the
    exception.  The exception holds the captured stderr, but its text
    is made of the command and the return code alone: the stderr the
    claim wants surfaced is captured and then never printed.  The run
    exits with 1. *)
Theorem quiet_failure_message (cl : Args.CommandLine) (w : World)
  (c : ChildExit) :
  Args.cl_verbose cl = false ->
  Args.cl_analyze cl = false ->
  probe_ok w = true ->
  w_exists w (Args.cl_input cl) = true ->
  w_spawn w (engine_cmd cl) = Exits c ->
  returncode c <> 0%Z ->
  printed_lines (fst (run cl w))
  = [Interpolated processing_error_prefix
       (CalledProcessError (returncode c) (engine_cmd cl)
          (Some (child_stdout c)) (Some (child_stderr c)))]
  /\ streamed (fst (run cl w)) = []
  /\ (forall out err,
        str_exn (CalledProcessError (returncode c) (engine_cmd cl) out err)
        = str_CalledProcessError (returncode c) (engine_cmd cl))
  /\ snd (run cl w) = Exit 1.
Proof.
  intros Hv Ha Hp Hex Hsp Hrc.
  rewrite (run_failed cl w c Hp Ha Hex Hsp Hrc).
  unfold engine_error. rewrite Hv.
  repeat split.
Qed.

Lemma quiet_failure_message_witness :
  let cl := Args.mkCommandLine "talk.mp3" None false false None None None in
  let c := mkChildExit 1 "" "Unknown encoder libmp3lame" in
  let w := sample_world (Exits c) true 2000 1000 "talk.mp3" in
  exists line,
    map printed_text (printed_lines (fst (run cl w))) = [Some line]
    /\ PyStr.contains "Error processing audio: Command '['ffmpeg', " line
       = true
    /\ PyStr.contains "returned non-zero exit status 1." line = true
    /\ PyStr.contains (child_stderr c) line = false.
Proof.
  intros cl c w.
  destruct (quiet_failure_message cl w c
              eq_refl eq_refl eq_refl eq_refl eq_refl ltac:(discriminate))
    as (Hlines & _).
  rewrite Hlines. eexists. split; [reflexivity|].
  repeat split; vm_compute; reflexivity.
Defined.

(** C2, as written, fails: an analysis run with a missing input reports
    no missing input and exits with 0. *)
Lemma analysis_skips_input_check :
  ~ missing_input_always_reported
      (Args.mkCommandLine "gone.mp3" None false true None None None)
      (sample_world
         (Exits (mkChildExit 1 "" "gone.mp3: No such file or directory"))
         false 0 0 "gone.mp3").
Proof.
  intros H. specialize (H eq_refl).
  vm_compute in H. destruct H as [H _]. discriminate H.
Qed.

(** C2, amended.  In every run with a missing input, no processing
    command is spawned; and in a processing run whose probe succeeds,
    the run is: the probe, the existence check, the input-not-found
    message, exit status 1. *)
Theorem missing_input_stops_processing (cl : Args.CommandLine) (w : World) :
  w_exists w (Args.cl_input cl) = false ->
  ~ processing_spawned (Args.cl_input cl) (fst (run cl w))
  /\ (probe_ok w = true -> Args.cl_analyze cl = false ->
      run cl w
      = ([EvSpawn probe_cmd true (w_spawn w probe_cmd);
          EvExists (Args.cl_input cl);
          EvPrint (Text (input_not_found_msg (Args.cl_input cl)))],
         Exit 1)).
Proof.
  intros Hex. split.
  - apply (no_processing_among (processor_of cl)).
    destruct (Args.cl_analyze cl) eqn:Ha.
    + apply (analysis_run_effects cl w Ha).
    + destruct (probe_cases w) as [Hp | [Hp | Hp]].
      * rewrite (run_missing cl w Hp Ha Hex). now left.
      * rewrite (run_probe_failed cl w Hp). now left.
      * rewrite (run_probe_raised cl w Hp). now left.
  - intros Hp Ha. now apply run_missing.
Qed.

Lemma missing_input_stops_processing_witness :
  let cl := Args.mkCommandLine "gone.mp3" None false false None None None in
  let w := sample_world (Exits (mkChildExit 0 "" "")) false 0 0 "gone.mp3" in
  w_exists w (Args.cl_input cl) = false
  /\ run cl w
     = ([EvSpawn probe_cmd true (w_spawn w probe_cmd);
         EvExists "gone.mp3";
         EvPrint (Text "Error: Input file 'gone.mp3' not found.")],
        Exit 1).
Proof.
  intros cl w. split; [reflexivity|].
  exact (proj2 (missing_input_stops_processing cl w eq_refl)
           eq_refl eq_refl).
Defined.

(** C1, as written, fails: an analysis run whose engine child returns
    non-zero exits with 0. *)
Lemma failed_analysis_exits_zero :
  ~ exit_status_tracks_failure
      (Args.mkCommandLine "talk.mp3" None false true None None None)
      (sample_world (Exits (mkChildExit 1 "" "talk.mp3: Invalid data"))
         true 2000 1000 "talk.mp3").
Proof.
  intros H. vm_compute in H. discriminate H.
Qed.

(** C1, amended.  The exit status is 1 when the probe does not succeed;
    after a working probe, a processing run exits with 1 when the input
    is missing or the engine child returns non-zero, and with 0 when the
    child returns zero and the size report can be computed; an analysis
    run exits with 0 whenever its child ran and what it wrote decodes
    as text, whatever the child returned, and with 1 when what the
    child wrote does not decode. *)
Theorem exit_status_by_mode (cl : Args.CommandLine) (w : World) :
  let status := exit_status (snd (run cl w)) in
  (probe_ok w = false -> status = 1%Z)
  /\ (probe_ok w = true -> Args.cl_analyze cl = true ->
      forall c, w_spawn w (analysis_cmd cl) = Exits c ->
      ((exists out err,
          decode_text w (child_stdout c) = Some out
          /\ decode_text w (child_stderr c) = Some err) -> status = 0%Z)
      /\ (decode_text w (child_stdout c) = None
          \/ decode_text w (child_stderr c) = None -> status = 1%Z))
  /\ (probe_ok w = true -> Args.cl_analyze cl = false ->
      w_exists w (Args.cl_input cl) = false -> status = 1%Z)
  /\ (probe_ok w = true -> Args.cl_analyze cl = false ->
      w_exists w (Args.cl_input cl) = true ->
      forall c, w_spawn w (engine_cmd cl) = Exits c ->
      (returncode c <> 0%Z -> status = 1%Z)
      /\ (returncode c = 0%Z ->
          forall isz osz,
            w_getsize w (Args.cl_input cl) = inr isz ->
            w_getsize w (output_file_of (Args.parse_args cl)) = inr osz ->
            isz <> 0%N -> status = 0%Z)).
Proof.
  intros status. subst status. repeat split.
  - intros Hp. destruct (probe_cases w) as [Hok | [Hf | Hr]].
    + congruence.
    + now rewrite (run_probe_failed cl w Hf).
    + now rewrite (run_probe_raised cl w Hr).
  - intros (out & err & Hout & Herr).
    rewrite (run_analysis cl w H H0). cbn [snd].
    pose proof (analyze_silence_cases (processor_of cl) (Args.cl_input cl) w)
      as Hc. cbv zeta in Hc. fold (analysis_cmd cl) in Hc.
    rewrite H1, Hout, Herr in Hc.
    destruct (returncode c =? 0)%Z.
    + destruct Hc as (ps & n & ->). reflexivity.
    + rewrite Hc. reflexivity.
  - intros Hnone.
    rewrite (run_analysis cl w H H0). cbn [snd].
    pose proof (analyze_silence_cases (processor_of cl) (Args.cl_input cl) w)
      as Hc. cbv zeta in Hc. fold (analysis_cmd cl) in Hc.
    rewrite H1 in Hc.
    destruct (decode_text w (child_stdout c)) as [out|];
      [destruct (decode_text w (child_stderr c)) as [err|]|].
    + destruct Hnone; discriminate.
    + rewrite Hc. reflexivity.
    + rewrite Hc. reflexivity.
  - intros Hp Ha Hex. now rewrite (run_missing cl w Hp Ha Hex).
  - intros Hrc. now rewrite (run_failed cl w c).
  - intros Hrc isz osz Hi Ho Hnz.
    now rewrite (run_succeeded cl w c isz osz).
Qed.

Lemma exit_status_by_mode_witness :
  let cl := Args.mkCommandLine "talk.mp3" None false true None None None in
  let w := sample_world (Exits (mkChildExit 1 "" "talk.mp3: Invalid data"))
             true 2000 1000 "talk.mp3" in
  probe_ok w = true /\ exit_status (snd (run cl w)) = 0%Z.
Proof.
  intros cl w. split; [reflexivity|].
  exact (proj1 (proj1 (proj2 (exit_status_by_mode cl w)) eq_refl eq_refl
                  (mkChildExit 1 "" "talk.mp3: Invalid data") eq_refl)
           (ex_intro _ "" (ex_intro _ "talk.mp3: Invalid data"
                              (conj eq_refl eq_refl)))).
Defined.

End Runs.

(** ** Every shape a run can take *)

Section Shapes.
Import RunFacts PyStr PyStrFacts.

(** The loop of [analyze_silence], exactly: it prints the lines that
    pass the first test, in order, and collects those that also pass
    the second. *)
Lemma scan_silence_exact (lines acc : list string) (w : World) :
  scan_silence lines acc w
  = (map (fun s => EvPrint (Text s)) (filter is_silence_line lines),
     Ok (acc ++ filter is_silence_period lines)).
Proof.
  revert acc. induction lines as [|line rest IH]; intros acc.
  - simpl. now rewrite app_nil_r.
  - assert (Hp : is_silence_period line
                 = is_silence_line line && contains "silence_duration" line)
      by reflexivity.
    cbn [scan_silence filter].
    change (contains "silencedetect" line && contains "silence_" line)
      with (is_silence_line line).
    rewrite Hp.
    destruct (is_silence_line line);
      [destruct (contains "silence_duration" line)|];
      cbn [andb]; unfold bind, print; rewrite IH; cbn [app map];
      rewrite <- ?app_assoc; reflexivity.
Qed.

(** [analyze_silence] after a child that returned zero and whose two
    streams decode: the report is made from the text of its stderr. *)
Lemma analyze_silence_done (self : VoicePromptProcessor) (i : string)
  (w : World) (c : ChildExit) (out err : string) :
  w_spawn w (analyze_cmd self i) = Exits c ->
  decode_text w (child_stdout c) = Some out ->
  decode_text w (child_stderr c) = Some err ->
  returncode c = 0%Z ->
  analyze_silence self i w
  = (analysis_header self i
       ++ EvSpawn (analyze_cmd self i) true (Exits c)
       :: map (fun s => EvPrint (Text s))
            (filter is_silence_line (text_lines err))
       ++ [EvPrint (Text (total_line
             (length (filter is_silence_period (text_lines err)))))],
     Ok tt).
Proof.
  intros Hsp Hout Herr Hrc. apply Z.eqb_eq in Hrc.
  unfold decode_text in Hout, Herr.
  destruct (w_decode w (child_stdout c)) as [dout|] eqn:Hdo; [|discriminate].
  destruct (w_decode w (child_stderr c)) as [derr|] eqn:Hde; [|discriminate].
  injection Herr as <-.
  unfold analyze_silence. monad_unfold. rewrite Hsp, Hdo, Hde, Hrc.
  cbv beta iota zeta. cbn [cp_stderr].
  fold (text_lines (translate_newlines derr)).
  rewrite scan_silence_exact. reflexivity.
Qed.

(** Case analysis over all runs: a property of runs holds of every run
    once it holds of each of the thirteen shapes a run can take. *)
Lemma run_shapes (cl : Args.CommandLine) (w : World)
  (P : list event * termination -> Prop) :
  let i := Args.cl_input cl in
  let o := output_file_of (Args.parse_args cl) in
  let v := Args.cl_verbose cl in
  let self := processor_of cl in
  (probe_fails w ->
   P ([probe_event w; EvPrint (Text ffmpeg_not_found_msg)], Exit 1)) ->
  (w_spawn w probe_cmd = SpawnFails PermissionError ->
   P ([probe_event w], Traceback (ExOSError PermissionError))) ->
  (forall e, probe_ok w = true -> Args.cl_analyze cl = true ->
   w_spawn w (analysis_cmd cl) = SpawnFails e ->
   P (probe_event w :: analysis_header self i
        ++ [EvSpawn (analysis_cmd cl) true (SpawnFails e)],
      Traceback (ExOSError e))) ->
  (forall c, probe_ok w = true -> Args.cl_analyze cl = true ->
   w_spawn w (analysis_cmd cl) = Exits c ->
   decode_text w (child_stdout c) = None
   \/ decode_text w (child_stderr c) = None ->
   P (probe_event w :: analysis_header self i
        ++ [EvSpawn (analysis_cmd cl) true (Exits c)],
      Traceback UnicodeDecodeError)) ->
  (forall c out err, probe_ok w = true -> Args.cl_analyze cl = true ->
   w_spawn w (analysis_cmd cl) = Exits c ->
   decode_text w (child_stdout c) = Some out ->
   decode_text w (child_stderr c) = Some err ->
   returncode c <> 0%Z ->
   P (probe_event w :: analysis_header self i
        ++ [EvSpawn (analysis_cmd cl) true (Exits c);
            EvPrint (Interpolated analysis_error_prefix
                       (CalledProcessError (returncode c) (analysis_cmd cl)
                          (Some out) (Some err)))],
      Exit 0)) ->
  (forall c out err, probe_ok w = true -> Args.cl_analyze cl = true ->
   w_spawn w (analysis_cmd cl) = Exits c ->
   decode_text w (child_stdout c) = Some out ->
   decode_text w (child_stderr c) = Some err ->
   returncode c = 0%Z ->
   P (probe_event w :: analysis_header self i
        ++ EvSpawn (analysis_cmd cl) true (Exits c)
        :: map (fun s => EvPrint (Text s))
             (filter is_silence_line (text_lines err))
        ++ [EvPrint (Text (total_line
              (length (filter is_silence_period (text_lines err)))))],
      Exit 0)) ->
  (probe_ok w = true -> Args.cl_analyze cl = false ->
   w_exists w i = false ->
   P ([probe_event w; EvExists i; EvPrint (Text (input_not_found_msg i))],
      Exit 1)) ->
  (forall e, probe_ok w = true -> Args.cl_analyze cl = false ->
   w_exists w i = true -> w_spawn w (engine_cmd cl) = SpawnFails e ->
   P (processing_prefix cl w
        ++ [EvSpawn (engine_cmd cl) (negb v) (SpawnFails e)],
      Traceback (ExOSError e))) ->
  (forall c, probe_ok w = true -> Args.cl_analyze cl = false ->
   w_exists w i = true -> w_spawn w (engine_cmd cl) = Exits c ->
   returncode c <> 0%Z ->
   P (processing_prefix cl w
        ++ [EvSpawn (engine_cmd cl) (negb v) (Exits c);
            EvPrint (Interpolated processing_error_prefix
                       (engine_error cl c))],
      Exit 1)) ->
  (forall c e, probe_ok w = true -> Args.cl_analyze cl = false ->
   w_exists w i = true -> w_spawn w (engine_cmd cl) = Exits c ->
   returncode c = 0%Z -> w_getsize w i = inl e ->
   P (processing_prefix cl w
        ++ EvSpawn (engine_cmd cl) (negb v) (Exits c)
        :: completion v ++ [EvGetsize i],
      Traceback (ExOSError e))) ->
  (forall c isz e, probe_ok w = true -> Args.cl_analyze cl = false ->
   w_exists w i = true -> w_spawn w (engine_cmd cl) = Exits c ->
   returncode c = 0%Z -> w_getsize w i = inr isz -> w_getsize w o = inl e ->
   P (processing_prefix cl w
        ++ EvSpawn (engine_cmd cl) (negb v) (Exits c)
        :: completion v ++ [EvGetsize i; EvGetsize o],
      Traceback (ExOSError e))) ->
  (forall c osz, probe_ok w = true -> Args.cl_analyze cl = false ->
   w_exists w i = true -> w_spawn w (engine_cmd cl) = Exits c ->
   returncode c = 0%Z -> w_getsize w i = inr 0%N -> w_getsize w o = inr osz ->
   P (processing_prefix cl w
        ++ EvSpawn (engine_cmd cl) (negb v) (Exits c)
        :: completion v ++ [EvGetsize i; EvGetsize o],
      Traceback ZeroDivisionError)) ->
  (forall c isz osz, probe_ok w = true -> Args.cl_analyze cl = false ->
   w_exists w i = true -> w_spawn w (engine_cmd cl) = Exits c ->
   returncode c = 0%Z -> w_getsize w i = inr isz -> w_getsize w o = inr osz ->
   isz <> 0%N ->
   P (processing_prefix cl w
        ++ EvSpawn (engine_cmd cl) (negb v) (Exits c)
        :: completion v
        ++ [EvGetsize i; EvGetsize o;
            EvPrint (SizeLine (megabytes isz) (megabytes osz)
                       ((megabytes isz - megabytes osz)
                        / megabytes isz * 100)%Q)],
      Exit 0)) ->
  P (run cl w).
Proof.
  intros i o v self H1 H2 H3 Hdec H4 H5 H6 H7 H8 H9 H10 H11 H12.
  destruct (probe_cases w) as [Hp | [Hp | Hp]].
  2: { rewrite (run_probe_failed cl w Hp). now apply H1. }
  2: { rewrite (run_probe_raised cl w Hp). unfold probe_event in H2.
       rewrite Hp in H2. now apply H2. }
  destruct (Args.cl_analyze cl) eqn:Ha.
  - rewrite (run_analysis cl w Hp Ha). fold i self.
    pose proof (analyze_silence_cases self i w) as H. cbv zeta in H.
    change (analyze_cmd self i) with (analysis_cmd cl) in H.
    destruct (w_spawn w (analysis_cmd cl)) as [e|c] eqn:Hsp.
    + rewrite H. now apply H3.
    + destruct (decode_text w (child_stdout c)) as [out|] eqn:Hout;
        [destruct (decode_text w (child_stderr c)) as [err|] eqn:Herr|].
      * destruct (Z.eq_dec (returncode c) 0) as [Hrc|Hrc].
        -- rewrite (analyze_silence_done self i w c out err Hsp Hout Herr Hrc).
           now apply (H5 c out err).
        -- apply Z.eqb_neq in Hrc as Hrc'. rewrite Hrc' in H. rewrite H.
           now apply (H4 c out err).
      * rewrite H. apply (Hdec c); auto.
      * rewrite H. apply (Hdec c); auto.
  - destruct (w_exists w i) eqn:Hex.
    2: { rewrite (run_missing cl w Hp Ha Hex). now apply H6. }
    pose proof (run_processing cl w Hp Ha) as Hr. cbv zeta in Hr.
    fold i o v self in Hr.
    destruct (w_spawn w (engine_cmd cl)) as [e|c] eqn:Hsp.
    + rewrite (process_audio_unstarted self i o v w e Hex Hsp) in Hr.
      rewrite Hr. now apply H7.
    + destruct (Z.eq_dec (returncode c) 0) as [Hrc|Hrc].
      * rewrite (process_audio_returned self i o v w c Hex Hsp Hrc) in Hr.
        rewrite report_sizes_cases in Hr.
        destruct (w_getsize w i) as [e|isz] eqn:Hi.
        { rewrite Hr. now apply (H9 c e). }
        destruct (w_getsize w o) as [e|osz] eqn:Ho.
        { rewrite Hr. now apply (H10 c isz e). }
        destruct (N.eqb_spec isz 0) as [->|Hnz].
        { rewrite Hr. now apply (H11 c osz). }
        rewrite Hr. now apply (H12 c isz osz).
      * rewrite (process_audio_failed self i o v w c Hex Hsp Hrc) in Hr.
        rewrite Hr. now apply H8.
Qed.

End Shapes.

(** ** Further properties of the script *)

Section Further.
Import RunFacts PyStr PyStrFacts.
Local Open Scope string_scope.

Lemma prefix_weaken (p q s : string) :
  String.prefix (p ++ q) s = true -> String.prefix p s = true.
Proof.
  revert s. induction p as [|a p IH]; intros s H.
  - now destruct s.
  - destruct s as [|b s]; simpl in *; [discriminate|].
    destruct (ascii_dec a b); [now apply IH | discriminate].
Qed.

(** A text that holds [p ++ q] holds [p]. *)
Lemma contains_weaken (p q s : string) :
  contains (p ++ q) s = true -> contains p s = true.
Proof.
  induction s as [|c s IH]; cbn [contains].
  - destruct (String.prefix (p ++ q) "") eqn:E; intros H; [|discriminate].
    now rewrite (prefix_weaken p q _ E).
  - destruct (String.prefix (p ++ q) (String c s)) eqn:E.
    + intros _. now rewrite (prefix_weaken p q _ E).
    + intros H. rewrite (IH H). now destruct (String.prefix p (String c s)).
Qed.

(** The second test of the loop makes half of the first one redundant. *)
Lemma silence_period_test (line : string) :
  is_silence_period line
  = (contains "silencedetect" line && contains "silence_duration" line)%bool.
Proof.
  unfold is_silence_period, is_silence_line.
  destruct (contains "silence_duration" line) eqn:E.
  - rewrite (contains_weaken "silence_" "duration" line E).
    now rewrite !andb_true_r.
  - now rewrite !andb_false_r.
Qed.

Lemma printed_lines_app (a b : list event) :
  printed_lines (a ++ b) = (printed_lines a ++ printed_lines b)%list.
Proof.
  induction a as [|[] a IH]; simpl; [reflexivity| | | |]; now rewrite IH.
Qed.

Lemma printed_lines_prints (ps : list string) :
  printed_lines (map (fun s => EvPrint (Text s)) ps) = map Text ps.
Proof. induction ps as [|x ps IH]; simpl; [reflexivity | now rewrite IH]. Qed.

Lemma size_line_prints (ps : list string) :
  existsb is_size_line (map (fun s => EvPrint (Text s)) ps) = false.
Proof. induction ps; simpl; auto. Qed.

Lemma filter_length_le {A} (f : A -> bool) (l : list A) :
  (length (filter f l) <= length l)%nat.
Proof.
  induction l as [|x l IH]; simpl; [lia|]. destruct (f x); simpl; lia.
Qed.

(** Counted lines are printed lines. *)
Lemma periods_among_lines (l : list string) :
  filter is_silence_period l
  = filter (fun line => contains "silence_duration" line)
      (filter is_silence_line l).
Proof.
  induction l as [|x l IH]; [reflexivity|].
  cbn [filter]. unfold is_silence_period at 1.
  destruct (is_silence_line x); cbn [andb filter].
  - destruct (contains "silence_duration" x); now rewrite IH.
  - exact IH.
Qed.

(** [get_audio_info] in every world. *)
Lemma get_audio_info_cases (i : string) (w : World) :
  let cmd := probe_info_cmd i in
  get_audio_info i w =
  match w_spawn w cmd with
  | SpawnFails o => ([EvSpawn cmd true (SpawnFails o)], Raise (ExOSError o))
  | Exits c =>
      match decode_text w (child_stdout c), decode_text w (child_stderr c) with
      | Some out, Some err =>
          if (returncode c =? 0)%Z
          then ([EvSpawn cmd true (Exits c)], Ok (Some out))
          else ([EvSpawn cmd true (Exits c);
                 EvPrint (Interpolated info_error_prefix
                            (CalledProcessError (returncode c) cmd
                               (Some out) (Some err)))],
                Ok None)
      | _, _ => ([EvSpawn cmd true (Exits c)], Raise UnicodeDecodeError)
      end
  end.
Proof.
  intros cmd. unfold get_audio_info, decode_text. fold cmd. monad_unfold.
  destruct (w_spawn w cmd) as [o|c]; [reflexivity|].
  destruct (w_decode w (child_stdout c)) as [out|];
    destruct (w_decode w (child_stderr c)) as [err|];
    try reflexivity.
  destruct (returncode c =? 0)%Z; reflexivity.
Qed.

(** X1.  [get_audio_info] returns the text of [ffprobe]'s stdout exactly
    when the child returned zero and both of its streams decode, and
    [None] exactly when the child returned non-zero and both streams
    decode, in which case (and only then) it prints one error line.
    It raises exactly when [ffprobe] cannot be started (the [OSError])
    or when what the child wrote does not decode
    ([UnicodeDecodeError], whatever the return code). *)
Theorem get_audio_info_result (i : string) (w : World) :
  (forall s, snd (get_audio_info i w) = Ok (Some s)
     <-> exists c err, w_spawn w (probe_info_cmd i) = Exits c
                       /\ returncode c = 0%Z
                       /\ decode_text w (child_stdout c) = Some s
                       /\ decode_text w (child_stderr c) = Some err)
  /\ (snd (get_audio_info i w) = Ok None
      <-> exists c out err, w_spawn w (probe_info_cmd i) = Exits c
                            /\ returncode c <> 0%Z
                            /\ decode_text w (child_stdout c) = Some out
                            /\ decode_text w (child_stderr c) = Some err)
  /\ (forall e, snd (get_audio_info i w) = Raise e
      <-> (exists o, w_spawn w (probe_info_cmd i) = SpawnFails o
                     /\ e = ExOSError o)
          \/ (exists c, w_spawn w (probe_info_cmd i) = Exits c
                        /\ (decode_text w (child_stdout c) = None
                            \/ decode_text w (child_stderr c) = None)
                        /\ e = UnicodeDecodeError))
  /\ (printed_lines (fst (get_audio_info i w)) <> []
      <-> snd (get_audio_info i w) = Ok None).
Proof.
  rewrite get_audio_info_cases. cbv zeta.
  destruct (w_spawn w (probe_info_cmd i)) as [o|c] eqn:Hsp.
  - cbn [fst snd printed_lines]. repeat split; intros H;
      try discriminate; try congruence.
    + destruct H as (c & err & Hc & _). discriminate.
    + destruct H as (c & out & err & Hc & _). discriminate.
    + injection H as <-. left. now exists o.
    + destruct H as [(o' & Ho & ->) | (c & Hc & _)];
        [now injection Ho as -> | discriminate].
  - destruct (decode_text w (child_stdout c)) as [out|] eqn:Hout;
      [destruct (decode_text w (child_stderr c)) as [err|] eqn:Herr|].
    + destruct (returncode c =? 0)%Z eqn:Hrc; cbn [fst snd printed_lines].
      * apply Z.eqb_eq in Hrc. repeat split; intros H;
          try discriminate; try congruence.
        -- injection H as <-. now exists c, err.
        -- destruct H as (c' & err' & Hc & _ & Hs & _).
           injection Hc as <-. congruence.
        -- destruct H as (c' & o' & e' & Hc & Hn & _).
           injection Hc as <-. contradiction.
        -- destruct H as [(o & Ho & _) | (c' & Hc & Hd & _)];
             [discriminate|]. injection Hc as <-.
           destruct Hd; congruence.
      * apply Z.eqb_neq in Hrc. repeat split; intros H;
          try discriminate; try congruence.
        -- destruct H as (c' & e' & Hc & Hz & _).
           injection Hc as <-. contradiction.
        -- now exists c, out, err.
        -- destruct H as [(o & Ho & _) | (c' & Hc & Hd & _)];
             [discriminate|]. injection Hc as <-.
           destruct Hd; congruence.
    + cbn [fst snd printed_lines]. repeat split; intros H;
        try discriminate; try congruence.
      * destruct H as (c' & e' & Hc & _ & _ & He).
        injection Hc as <-. congruence.
      * destruct H as (c' & o' & e' & Hc & _ & _ & He).
        injection Hc as <-. congruence.
      * injection H as <-. right. exists c. auto.
      * destruct H as [(o & Ho & _) | (c' & _ & _ & ->)];
          [discriminate | reflexivity].
    + cbn [fst snd printed_lines]. repeat split; intros H;
        try discriminate; try congruence.
      * destruct H as (c' & e' & Hc & _ & Hs & _).
        injection Hc as <-. congruence.
      * destruct H as (c' & o' & e' & Hc & _ & Hs & _).
        injection Hc as <-. congruence.
      * injection H as <-. right. exists c. auto.
      * destruct H as [(o & Ho & _) | (c' & _ & _ & ->)];
          [discriminate | reflexivity].
Qed.

(** X2.  After a working probe, an analysis whose child returns zero
    and whose two streams decode as text prints, between its two header
    lines and the total, exactly the lines of the stderr text that hold
    both [silencedetect] and [silence_], in their order; the total is
    the number of those lines that hold both [silencedetect] and
    [silence_duration], and never exceeds the number of lines printed;
    the run exits with 0. *)
Theorem analysis_report (cl : Args.CommandLine) (w : World) (c : ChildExit)
  (out err : string) :
  probe_ok w = true ->
  Args.cl_analyze cl = true ->
  w_spawn w (analysis_cmd cl) = Exits c ->
  decode_text w (child_stdout c) = Some out ->
  decode_text w (child_stderr c) = Some err ->
  returncode c = 0%Z ->
  let shown := filter is_silence_line (text_lines err) in
  let total :=
    length (filter (fun line => contains "silencedetect" line
                                && contains "silence_duration" line)
              (text_lines err)) in
  printed_lines (fst (run cl w))
  = (printed_lines (analysis_header (processor_of cl) (Args.cl_input cl))
       ++ map Text shown ++ [Text (total_line total)])%list
  /\ (total <= length shown)%nat
  /\ snd (run cl w) = Exit 0.
Proof.
  intros Hp Ha Hsp Hout Herr Hrc shown total.
  rewrite (run_analysis cl w Hp Ha).
  rewrite (analyze_silence_done _ _ w c out err Hsp Hout Herr Hrc).
  cbn [fst snd].
  assert (Ht : total = length (filter is_silence_period (text_lines err))).
  { subst total. f_equal. apply filter_ext. intros l.
    now rewrite silence_period_test. }
  repeat split.
  - cbn [printed_lines]. rewrite printed_lines_app. cbn [printed_lines].
    rewrite printed_lines_app, printed_lines_prints. now rewrite Ht.
  - rewrite Ht, periods_among_lines. apply filter_length_le.
Qed.

Lemma analysis_report_witness :
  let cl := Args.mkCommandLine "talk.mp3" None false true None None None in
  let err := "[silencedetect @ 0x1] silence_start: 1.5" ++ nl
             ++ "[silencedetect @ 0x1] silence_end: 2.5 | silence_duration: 1"
             ++ nl ++ "size=N/A time=00:00:09.00" in
  let w := sample_world (Exits (mkChildExit 0 "" err)) true 2000 1000
             "talk.mp3" in
  printed_lines (fst (run cl w))
  = [Text (nl ++ "Analyzing silence patterns in: talk.mp3");
     Text ("Threshold: -35dB, Min duration: 0.4s" ++ nl);
     Text "[silencedetect @ 0x1] silence_start: 1.5";
     Text "[silencedetect @ 0x1] silence_end: 2.5 | silence_duration: 1";
     Text (nl ++ "Total silence periods detected: 1")].
Proof.
  intros cl err w.
  exact (proj1 (analysis_report cl w (mkChildExit 0 "" err) "" err
                  eq_refl eq_refl eq_refl eq_refl eq_refl eq_refl)).
Defined.



Lemma size_line_prefix (cl : Args.CommandLine) (w : World) :
  existsb is_size_line (processing_prefix cl w) = false.
Proof.
  unfold processing_prefix, probe_event, preamble.
  now destruct (Args.cl_verbose cl).
Qed.

Lemma size_line_completion (v : bool) (t : list event) :
  existsb is_size_line (completion v ++ t) = existsb is_size_line t.
Proof. now destruct v. Qed.

(** A processing run whose engine child returned zero: what is left is
    the size report. *)
Lemma run_returned (cl : Args.CommandLine) (w : World) (c : ChildExit) :
  probe_ok w = true ->
  Args.cl_analyze cl = false ->
  w_exists w (Args.cl_input cl) = true ->
  w_spawn w (engine_cmd cl) = Exits c ->
  returncode c = 0%Z ->
  let report := report_sizes (Args.cl_input cl)
                  (output_file_of (Args.parse_args cl)) w in
  run cl w
  = ((processing_prefix cl w
        ++ EvSpawn (engine_cmd cl) (negb (Args.cl_verbose cl)) (Exits c)
        :: completion (Args.cl_verbose cl) ++ fst report)%list,
     match snd report with
     | Ok _ => Exit 0
     | Raise e => Traceback e
     end).
Proof.
  intros Hp Ha Hex Hsp Hrc report.
  pose proof (run_processing cl w Hp Ha) as Hr. cbv zeta in Hr.
  rewrite (process_audio_returned _ _ _ _ _ c Hex Hsp Hrc) in Hr.
  fold report in Hr. rewrite Hr. cbn [fst snd].
  unfold processing_prefix. f_equal. now destruct (snd report) as [[]|e].
Qed.



(** X5.  The size line is printed exactly in the processing runs that
    exit with 0: never in analysis mode, never in a run that fails. *)
Theorem size_line_iff_success (cl : Args.CommandLine) (w : World) :
  existsb is_size_line (fst (run cl w)) = true
  <-> (Args.cl_analyze cl = false /\ snd (run cl w) = Exit 0).
Proof.
  apply (run_shapes cl w (fun r =>
    existsb is_size_line (fst r) = true
    <-> (Args.cl_analyze cl = false /\ snd r = Exit 0)));
    intros; cbn [fst snd];
    try (cbn [existsb is_size_line probe_event analysis_header app orb];
         rewrite ?existsb_app, ?size_line_prints; cbn;
         split; [discriminate | intros [? ?]; congruence]);
    rewrite existsb_app, size_line_prefix; cbn [existsb orb is_size_line];
    rewrite ?size_line_completion; cbn;
    split; try discriminate; try (intros [? ?]; congruence); auto.
Qed.

(** X6.  A processing run on a zero-byte input whose engine child
    returns zero still fails: both sizes are read, the division raises
    [ZeroDivisionError] past the handler, no size line is printed and
    the exit status is 1. *)
Theorem empty_input_raises (cl : Args.CommandLine) (w : World)
  (c : ChildExit) (osz : N) :
  probe_ok w = true ->
  Args.cl_analyze cl = false ->
  w_exists w (Args.cl_input cl) = true ->
  w_spawn w (engine_cmd cl) = Exits c ->
  returncode c = 0%Z ->
  w_getsize w (Args.cl_input cl) = inr 0%N ->
  w_getsize w (output_file_of (Args.parse_args cl)) = inr osz ->
  run cl w
  = ((processing_prefix cl w
        ++ EvSpawn (engine_cmd cl) (negb (Args.cl_verbose cl)) (Exits c)
        :: completion (Args.cl_verbose cl)
        ++ [EvGetsize (Args.cl_input cl);
            EvGetsize (output_file_of (Args.parse_args cl))])%list,
     Traceback ZeroDivisionError)
  /\ exit_status (snd (run cl w)) = 1%Z.
Proof.
  intros Hp Ha Hex Hsp Hrc Hi Ho.
  pose proof (run_returned cl w c Hp Ha Hex Hsp Hrc) as Hr. cbv zeta in Hr.
  rewrite report_sizes_cases, Hi, Ho in Hr. cbn in Hr.
  rewrite Hr. split; reflexivity.
Qed.

Lemma empty_input_raises_witness :
  let cl := Args.mkCommandLine "empty.mp3" None false false None None None in
  let w := sample_world (Exits (mkChildExit 0 "" "")) true 0 300
             "empty.mp3" in
  exit_status (snd (run cl w)) = 1%Z.
Proof.
  intros cl w.
  exact (proj2 (empty_input_raises cl w (mkChildExit 0 "" "") 300
                  eq_refl eq_refl eq_refl eq_refl eq_refl eq_refl eq_refl)).
Defined.

(** X7.  A processing run whose engine child returns zero but whose
    output size cannot be read (the output is not there) ends with the
    [OSError] uncaught: exit status 1 although the child succeeded. *)
Theorem unreadable_output_raises (cl : Args.CommandLine) (w : World)
  (c : ChildExit) (isz : N) (e : OSError) :
  probe_ok w = true ->
  Args.cl_analyze cl = false ->
  w_exists w (Args.cl_input cl) = true ->
  w_spawn w (engine_cmd cl) = Exits c ->
  returncode c = 0%Z ->
  w_getsize w (Args.cl_input cl) = inr isz ->
  w_getsize w (output_file_of (Args.parse_args cl)) = inl e ->
  snd (run cl w) = Traceback (ExOSError e)
  /\ exit_status (snd (run cl w)) = 1%Z
  /\ existsb is_size_line (fst (run cl w)) = false.
Proof.
  intros Hp Ha Hex Hsp Hrc Hi Ho.
  pose proof (run_returned cl w c Hp Ha Hex Hsp Hrc) as Hr. cbv zeta in Hr.
  rewrite report_sizes_cases, Hi, Ho in Hr. cbn [fst snd] in Hr.
  rewrite Hr. cbn [fst snd]. repeat split.
  rewrite existsb_app, size_line_prefix. cbn [existsb orb is_size_line].
  rewrite size_line_completion. reflexivity.
Qed.

Lemma unreadable_output_raises_witness :
  let cl := Args.mkCommandLine "talk.mp3" None false false None None None in
  let w := mkWorld
             (fun _ => Exits (mkChildExit 0 "" ""))
             (fun _ => true)
             (fun p => if String.eqb p "talk.mp3" then inr 2000%N
                       else inl FileNotFoundError) in
  snd (run cl w) = Traceback (ExOSError FileNotFoundError).
Proof.
  intros cl w.
  exact (proj1 (unreadable_output_raises cl w (mkChildExit 0 "" "") 2000
                  FileNotFoundError
                  eq_refl eq_refl eq_refl eq_refl eq_refl eq_refl eq_refl)).
Defined.

(** X8.  In a verbose processing run whose engine child returns
    non-zero, the child is not captured: what it wrote went straight to
    the streams it inherits from the script, and the exception holds
    none of it.  The script itself prints, in this order, the three
    echo lines and the error line, and exits with 1.  (Where the
    child's text stands on screen among the script's lines depends on
    buffering, which the script leaves alone.) *)
Theorem verbose_failure_shows_child (cl : Args.CommandLine) (w : World)
  (c : ChildExit) :
  Args.cl_verbose cl = true ->
  Args.cl_analyze cl = false ->
  probe_ok w = true ->
  w_exists w (Args.cl_input cl) = true ->
  w_spawn w (engine_cmd cl) = Exits c ->
  returncode c <> 0%Z ->
  streamed (fst (run cl w)) = [(child_stdout c, child_stderr c)]
  /\ printed_lines (fst (run cl w))
     = [Text (nl ++ "Processing: " ++ Args.cl_input cl);
        Text ("Output: " ++ output_file_of (Args.parse_args cl));
        Text (nl ++ "Filter chain: "
              ++ build_filter_chain (processor_of cl) ++ nl);
        Interpolated processing_error_prefix
          (CalledProcessError (returncode c) (engine_cmd cl) None None)]
  /\ snd (run cl w) = Exit 1.
Proof.
  intros Hv Ha Hp Hex Hsp Hrc.
  rewrite (run_failed cl w c Hp Ha Hex Hsp Hrc).
  unfold engine_error. rewrite Hv.
  repeat split.
Qed.

Lemma verbose_failure_shows_child_witness :
  let cl := Args.mkCommandLine "talk.mp3" None true false None None None in
  let w := sample_world
             (Exits (mkChildExit 1 "" "Unknown encoder libmp3lame"))
             true 2000 1000 "talk.mp3" in
  streamed (fst (run cl w)) = [("", "Unknown encoder libmp3lame")].
Proof.
  intros cl w.
  exact (proj1 (verbose_failure_shows_child cl w
                  (mkChildExit 1 "" "Unknown encoder libmp3lame")
                  eq_refl eq_refl eq_refl eq_refl eq_refl
                  ltac:(discriminate))).
Defined.

(** X9.  In a quiet processing run that succeeds, the only thing the
    user sees is the size line: the child's output is captured and
    dropped. *)
Theorem quiet_success_shows_size_only (cl : Args.CommandLine) (w : World)
  (c : ChildExit) (isz osz : N) :
  Args.cl_verbose cl = false ->
  Args.cl_analyze cl = false ->
  probe_ok w = true ->
  w_exists w (Args.cl_input cl) = true ->
  w_spawn w (engine_cmd cl) = Exits c ->
  returncode c = 0%Z ->
  w_getsize w (Args.cl_input cl) = inr isz ->
  w_getsize w (output_file_of (Args.parse_args cl)) = inr osz ->
  isz <> 0%N ->
  terminal (fst (run cl w))
  = [ShownPrint (SizeLine (megabytes isz) (megabytes osz)
                   ((megabytes isz - megabytes osz) / megabytes isz * 100)%Q)].
Proof.
  intros Hv Ha Hp Hex Hsp Hrc Hi Ho Hnz.
  rewrite (run_succeeded cl w c isz osz Hp Ha Hex Hsp Hrc Hi Ho Hnz).
  rewrite Hv. reflexivity.
Qed.

Lemma quiet_success_shows_size_only_witness :
  let cl := Args.mkCommandLine "talk.mp3" None false false None None None in
  let w := sample_world (Exits (mkChildExit 0 "" "frame dropped")) true
             2000 1000 "talk.mp3" in
  length (terminal (fst (run cl w))) = 1%nat.
Proof.
  intros cl w.
  rewrite (quiet_success_shows_size_only cl w
             (mkChildExit 0 "" "frame dropped") 2000 1000
             eq_refl eq_refl eq_refl eq_refl eq_refl eq_refl eq_refl eq_refl
             ltac:(discriminate)).
  reflexivity.
Defined.

(** X14.  [check_ffmpeg] does not handle an engine that is there but
    cannot be executed: the [PermissionError] escapes, nothing is
    printed by the script, no other step runs and the exit status
    is 1. *)
Theorem probe_permission_error_escapes (cl : Args.CommandLine) (w : World) :
  w_spawn w probe_cmd = SpawnFails PermissionError ->
  run cl w
  = ([EvSpawn probe_cmd true (SpawnFails PermissionError)],
     Traceback (ExOSError PermissionError))
  /\ printed_lines (fst (run cl w)) = []
  /\ exit_status (snd (run cl w)) = 1%Z.
Proof.
  intros Hp. rewrite (run_probe_raised cl w Hp). repeat split.
Qed.

Lemma probe_permission_error_escapes_witness :
  let cl := Args.mkCommandLine "talk.mp3" None false false None None None in
  let w := mkWorld (fun _ => SpawnFails PermissionError)
             (fun _ => true) (fun _ => inr 1000%N) in
  exit_status (snd (run cl w)) = 1%Z.
Proof.
  intros cl w.
  exact (proj2 (proj2 (probe_permission_error_escapes cl w eq_refl))).
Defined.

(** X16.  When the engine cannot be started after a working probe, the
    error is not handled in either mode: the run ends with the
    [OSError] uncaught and exit status 1, and prints no error line of
    its own. *)
Theorem engine_vanished_raises (cl : Args.CommandLine) (w : World)
  (e : OSError) :
  probe_ok w = true ->
  (Args.cl_analyze cl = true ->
   w_spawn w (analysis_cmd cl) = SpawnFails e ->
   snd (run cl w) = Traceback (ExOSError e)
   /\ printed_lines (fst (run cl w))
      = printed_lines (analysis_header (processor_of cl) (Args.cl_input cl)))
  /\ (Args.cl_analyze cl = false ->
      w_exists w (Args.cl_input cl) = true ->
      w_spawn w (engine_cmd cl) = SpawnFails e ->
      snd (run cl w) = Traceback (ExOSError e)
      /\ printed_lines (fst (run cl w))
         = printed_lines (preamble (Args.cl_verbose cl) (Args.cl_input cl)
                            (output_file_of (Args.parse_args cl))
                            (build_filter_chain (processor_of cl)))).
Proof.
  intros Hp. split.
  - intros Ha Hsp. rewrite (run_analysis cl w Hp Ha).
    pose proof (analyze_silence_cases (processor_of cl) (Args.cl_input cl) w)
      as H. cbv zeta in H.
    change (analyze_cmd (processor_of cl) (Args.cl_input cl))
      with (analysis_cmd cl) in H.
    rewrite Hsp in H. rewrite H. split; reflexivity.
  - intros Ha Hex Hsp.
    pose proof (run_processing cl w Hp Ha) as Hr. cbv zeta in Hr.
    rewrite (process_audio_unstarted _ _ _ _ w e Hex Hsp) in Hr.
    rewrite Hr. cbn [fst snd]. split; [reflexivity|].
    cbn [printed_lines]. rewrite printed_lines_app. cbn [printed_lines].
    now rewrite app_nil_r.
Qed.

Lemma engine_vanished_raises_witness :
  let cl := Args.mkCommandLine "talk.mp3" None false false None None None in
  let w := sample_world (SpawnFails FileNotFoundError) true 2000 1000
             "talk.mp3" in
  snd (run cl w) = Traceback (ExOSError FileNotFoundError).
Proof.
  intros cl w.
  exact (proj1 (proj2 (engine_vanished_raises cl w FileNotFoundError eq_refl)
                  eq_refl eq_refl eq_refl)).
Defined.

(** The two values both modes read, as the command line sets them. *)
Lemma effective_parameters_aux (cl : Args.CommandLine) :
  silence_threshold (processor_of cl)
  = match Args.cl_silence_threshold cl with
    | None => "-35dB"
    | Some v => if PyStr.truthy v then v else "-40dB"
    end
  /\ silence_duration (processor_of cl)
     = match Args.cl_silence_duration cl with
       | None => "0.4"
       | Some v => if PyStr.truthy v then v else "0.5"
       end.
Proof.
  unfold processor_of.
  destruct (override_fields (Args.parse_args cl) init) as (Ht & Hd & _).
  cbn [Args.parse_args Args.silence_threshold Args.silence_duration] in Ht, Hd.
  rewrite Ht, Hd.
  destruct (Args.cl_silence_threshold cl), (Args.cl_silence_duration cl);
    split; reflexivity.
Qed.

(** X10.  When no output path is given (or an empty one), the output
    path [main] computes is never the input path: neither as text nor
    as a parsed path, so the engine is not told to overwrite its own
    input. *)
Theorem default_output_not_input (cl : Args.CommandLine) :
  Args.cl_output cl = None \/ Args.cl_output cl = Some "" ->
  Pathlib.Path (output_file_of (Args.parse_args cl))
  <> Pathlib.Path (Args.cl_input cl)
  /\ output_file_of (Args.parse_args cl) <> Args.cl_input cl.
Proof.
  intros Hout.
  assert (Hdef : output_file_of (Args.parse_args cl)
                 = default_output_file (Args.cl_input cl)).
  { unfold output_file_of. cbn [Args.parse_args Args.output Args.input].
    now destruct Hout as [-> | ->]. }
  rewrite Hdef.
  assert (Hne : Pathlib.Path (default_output_file (Args.cl_input cl))
                <> Pathlib.Path (Args.cl_input cl)).
  { pose proof (PathlibFacts.default_output_path (Args.cl_input cl)) as Hp.
    cbv zeta in Hp. intros Heq. rewrite Heq in Hp.
    set (p := Pathlib.Path (Args.cl_input cl)) in *.
    assert (Hn : Pathlib.name p = processed_name p).
    { unfold Pathlib.name at 1. rewrite Hp at 1. cbn [Pathlib.tail].
      apply last_last. }
    pose proof (PathlibFacts.stem_suffix p) as Hs.
    apply (f_equal String.length) in Hn.
    unfold processed_name in Hn. rewrite <- Hs in Hn.
    rewrite !length_append in Hn. simpl in Hn. lia. }
  split; [exact Hne|].
  intros Heq. apply Hne. now rewrite Heq.
Qed.

Lemma default_output_not_input_witness :
  let cl := Args.mkCommandLine "a/b/talk.mp3" (Some "") false false
              None None None in
  output_file_of (Args.parse_args cl) <> Args.cl_input cl.
Proof.
  intros cl.
  exact (proj2 (default_output_not_input cl (or_intror eq_refl))).
Defined.

(** X11.  A non-empty output argument reaches the engine untouched, as
    the last argument of the processing command, right after the
    overwrite flag; an empty output argument gives the same command as
    no output argument. *)
Theorem output_argument_passed (cl : Args.CommandLine) :
  (forall o, Args.cl_output cl = Some o -> o <> "" ->
     exists front, engine_cmd cl = (front ++ ["-y"; o])%list)
  /\ engine_cmd (with_output (Some "") cl) = engine_cmd (with_output None cl).
Proof.
  split; [|reflexivity].
  intros o Ho Hne. unfold engine_cmd, output_file_of.
  cbn [Args.parse_args Args.output Args.input]. rewrite Ho.
  rewrite (truthy_nonempty o Hne).
  destruct (Args.cl_verbose cl).
  - exists ["ffmpeg"; "-i"; Args.cl_input cl; "-af";
            build_filter_chain (processor_of cl); "-ar"; "44100"; "-ac"; "1";
            "-c:a"; "libmp3lame"; "-b:a"; "96k"]. reflexivity.
  - exists ["ffmpeg"; "-loglevel"; "error"; "-i"; Args.cl_input cl; "-af";
            build_filter_chain (processor_of cl); "-ar"; "44100"; "-ac"; "1";
            "-c:a"; "libmp3lame"; "-b:a"; "96k"]. reflexivity.
Qed.

Lemma output_argument_passed_witness :
  let cl := Args.mkCommandLine "talk.mp3" (Some "./out//clean.mp3") false
              false None None None in
  exists front, engine_cmd cl = (front ++ ["-y"; "./out//clean.mp3"])%list.
Proof.
  intros cl.
  exact (proj1 (output_argument_passed cl) "./out//clean.mp3" eq_refl
           ltac:(discriminate)).
Defined.

(** X12.  The values the processor works with: a non-empty option value
    as given; with the option absent the parser's default ([-35dB],
    [0.4], [-16]); with the option given empty the constructor's
    default ([-40dB], [0.5], [-16]).  [max_silence_duration] is always
    [0.5]. *)
Theorem effective_parameters (cl : Args.CommandLine) :
  let p := processor_of cl in
  silence_threshold p
  = match Args.cl_silence_threshold cl with
    | None => "-35dB"
    | Some v => if PyStr.truthy v then v else "-40dB"
    end
  /\ silence_duration p
     = match Args.cl_silence_duration cl with
       | None => "0.4"
       | Some v => if PyStr.truthy v then v else "0.5"
       end
  /\ target_loudness p
     = match Args.cl_target_loudness cl with
       | None => "-16"
       | Some v => if PyStr.truthy v then v else "-16"
       end
  /\ max_silence_duration p = "0.5".
Proof.
  intros p. subst p. unfold processor_of.
  destruct (override_fields (Args.parse_args cl) init)
    as (Ht & Hd & Hl & Hm & _).
  cbn [Args.parse_args Args.silence_threshold Args.silence_duration
       Args.target_loudness] in Ht, Hd, Hl.
  rewrite Ht, Hd, Hl, Hm.
  destruct (Args.cl_silence_threshold cl), (Args.cl_silence_duration cl),
           (Args.cl_target_loudness cl); repeat split; reflexivity.
Qed.

(** X13.  In analysis mode the non-empty values given for
    [--silence-threshold] and [--silence-duration] are what the
    [silencedetect] filter gets as [noise] and [d]; they are the values
    the silence stage of the processing chain gets. *)
Theorem analysis_override_verbatim (cl : Args.CommandLine) (t d : string) :
  Args.cl_silence_threshold cl = Some t -> t <> "" ->
  Args.cl_silence_duration cl = Some d -> d <> "" ->
  analysis_cmd cl
  = ["ffmpeg"; "-i"; Args.cl_input cl; "-af";
     "silencedetect=noise=" ++ t ++ ":d=" ++ d; "-f"; "null"; "-"]
  /\ silence_filter (processor_of cl) = silence_stage d t d t.
Proof.
  intros Ht Hnt Hd Hnd.
  destruct (effective_parameters_aux cl) as (Et & Ed).
  rewrite Ht, (truthy_nonempty t Hnt) in Et.
  rewrite Hd, (truthy_nonempty d Hnd) in Ed.
  unfold analysis_cmd, analyze_cmd, silence_filter. rewrite Et, Ed.
  split; reflexivity.
Qed.

Lemma analysis_override_verbatim_witness :
  let cl := Args.mkCommandLine "talk.mp3" None false true
              (Some "-50dB") (Some "1.5") None in
  analysis_cmd cl
  = ["ffmpeg"; "-i"; "talk.mp3"; "-af"; "silencedetect=noise=-50dB:d=1.5";
     "-f"; "null"; "-"].
Proof.
  intros cl.
  exact (proj1 (analysis_override_verbatim cl "-50dB" "1.5"
                  eq_refl ltac:(discriminate) eq_refl ltac:(discriminate))).
Defined.

(** X15.  No command line changes the noise-reduction, equalizer or
    compressor stages: the chain always has the same nine stages, of
    which only the silence stage and the loudness stage carry values
    from the command line. *)
Theorem fixed_stages (cl : Args.CommandLine) :
  filters (processor_of cl)
  = [ "afftdn=nf=-25";
      silence_filter (processor_of cl);
      "highpass=f=100";
      "lowpass=f=10000";
      "equalizer=f=150:t=q:w=1:g=-3";
      "equalizer=f=200:t=q:w=1:g=-2";
      "equalizer=f=3000:t=q:w=2:g=3";
      "acompressor=threshold=-20dB:ratio=4:attack=5:release=50";
      loudnorm_filter (processor_of cl) ]%list.
Proof.
  rewrite filters_shape. unfold processor_of.
  destruct (override_fields (Args.parse_args cl) init)
    as (_ & _ & _ & _ & He & Hn & Hc).
  rewrite He, Hn, Hc. reflexivity.
Qed.

End Further.
